(** * cobot-logger: a shallow embedding of [main.py]

    The development follows the source file top-down:

    - the Python run-time notions the program relies on (exceptions, the
      system clock, truthiness, [round], true division);
    - [RateAverager] (rolling hourly rate from a total counter);
    - the sqlite connection and the [Dashboard] slots that are free of
      widget code: [new_job], [append_sample], [on_state], [on_data],
      [check_health], [log_sample_tick].

    Modelling conventions.

    - Python [int] is [Z]; [datetime] and [timedelta] values are [Z] numbers
      of microseconds (the resolution of both types, whose arithmetic and
      comparisons are exact); a Python [float] is a rational [Q], i.e.
      float arithmetic is taken without rounding error.
    - Every call of [datetime.now()] or [time.time()] consumes one reading
      of the system clock.  The clock is the sequence [clock w] of the
      world [w]; [ticks w] counts the readings taken so far.
    - A method [f(self, x)] becomes [f x self : M T], a computation over
      the world that returns the updated object or raises. *)

From Stdlib Require Import ZArith QArith Qround Qabs Lia Lqa List Sorted Bool Ascii.
From Stdlib Require DecimalString DecimalZ.
From stdpp Require Import base gmap strings.

Local Open Scope Z_scope.

(** ** Python run-time *)

Inductive py_exn : Type :=
| ZeroDivisionError
| IndexError.

Inductive outcome (A : Type) : Type :=
| Return (a : A)
| Raise (e : py_exn).

Arguments Return {A} a.
Arguments Raise {A} e.

Record World : Type := mkWorld {
  clock : nat -> Z;   (* i-th reading of the system clock, in microseconds *)
  ticks : nat         (* number of readings consumed so far *)
}.

Definition M (A : Type) : Type := World -> outcome (A * World).

Definition ret {A : Type} (a : A) : M A := fun w => Return (a, w).

Definition bind {A B : Type} (m : M A) (k : A -> M B) : M B :=
  fun w => match m w with
           | Return (a, w') => k a w'
           | Raise e => Raise e
           end.

Definition raise {A : Type} (e : py_exn) : M A := fun _ => Raise e.

Notation "'let*' x ':=' m 'in' k" := (bind m (fun x => k))
  (at level 10, x name, m at level 100, k at level 200).

Notation "'let*' ' p ':=' m 'in' k" :=
  (bind m (fun x => match x with p => k end))
  (at level 10, p strict pattern, m at level 100, k at level 200).

Definition read_clock : M Z :=
  fun w => Return (clock w (ticks w), mkWorld (clock w) (S (ticks w))).

(** [datetime.now()]: microseconds. *)
Definition datetime_now : M Z := read_clock.

(** [time.time()]: seconds, as a float. *)
Definition time_time : M Q :=
  let* t := read_clock in ret (inject_Z t / inject_Z 1000000)%Q.

(** [timedelta.total_seconds()]. *)
Definition total_seconds (td : Z) : Q := (inject_Z td / inject_Z 1000000)%Q.

(** Python's rounding of an exact value to the nearest integer, ties to
    the even neighbour. *)
Definition round_half_even (q : Q) : Z :=
  let f := Qfloor q in
  match (q - inject_Z f ?= 1 # 2)%Q with
  | Lt => f
  | Gt => f + 1
  | Eq => if Z.even f then f else f + 1
  end.

(** [round(x, 2)]. *)
Definition py_round2 (x : Q) : Q :=
  (inject_Z (round_half_even (x * inject_Z 100)) / inject_Z 100)%Q.

(** [timedelta(hours=h)]: rounded to the microsecond. *)
Definition timedelta_hours (h : Q) : Z :=
  round_half_even (h * inject_Z 3600000000).

(** [x / y] on floats. *)
Definition py_truediv (x y : Q) : M Q :=
  if Qeq_bool y 0 then raise ZeroDivisionError else ret (x / y)%Q.

(** [x > y] on floats. *)
Definition Qgtb (x y : Q) : bool := negb (Qle_bool x y).

(** [l[0]] and [l[-1]]. *)
Definition py_first (l : list Z) : M Z :=
  match l with
  | [] => raise IndexError
  | x :: _ => ret x
  end.

Definition py_last (l : list Z) : M Z :=
  match l with
  | [] => raise IndexError
  | x :: l' => ret (List.last l' x)
  end.

(** [x or y] where [x] is the result of [dict.get] on integer entries:
    [None] (absent key) and [0] are falsy. *)
Definition py_or (x : option Z) (y : Z) : Z :=
  match x with
  | Some v => if v =? 0 then y else v
  | None => y
  end.

(** ** class RateAverager *)

Record RateAverager : Type := mkRateAverager {
  events : list Z;            (* deque of datetimes *)
  window : Z;                 (* timedelta *)
  _last_total : option Z
}.

Definition RateAverager_init (window_hours : Q) : RateAverager :=
  mkRateAverager [] (timedelta_hours window_hours) None.

(** [while self.events and self.events[0] < cutoff: self.events.popleft()] *)
Fixpoint popleft_while_before (cutoff : Z) (ev : list Z) : list Z :=
  match ev with
  | [] => []
  | e :: ev' => if e <? cutoff then popleft_while_before cutoff ev' else ev
  end.

Definition _trim (self : RateAverager) : M RateAverager :=
  let* now := datetime_now in
  let cutoff := now - window self in
  ret (mkRateAverager (popleft_while_before cutoff (events self))
                      (window self) (_last_total self)).

(** [for _ in range(n): self.events.append(datetime.now())] *)
Fixpoint append_now (n : nat) (ev : list Z) : M (list Z) :=
  match n with
  | O => ret ev
  | S n' => let* t := datetime_now in append_now n' (ev ++ [t])
  end.

(** [range(z)] runs [z] times, and not at all for [z <= 0]. *)
Definition range_len (z : Z) : nat := Z.to_nat z.

Definition update_from_total (total_count : Z) (self : RateAverager)
  : M RateAverager :=
  match _last_total self with
  | None => ret (mkRateAverager (events self) (window self) (Some total_count))
  | Some last =>
      let* ev := (if total_count >? last
                  then append_now (range_len (total_count - last)) (events self)
                  else ret (events self)) in
      _trim (mkRateAverager ev (window self) (Some total_count))
  end.

Definition hourly_rate (self : RateAverager) : M (Q * RateAverager) :=
  let* self := _trim self in
  let len := Z.of_nat (length (events self)) in
  if len <=? 1 then
    let* hours := py_truediv (total_seconds (window self)) (inject_Z 3600) in
    let* r := py_truediv (inject_Z len) hours in
    ret (py_round2 r, self)
  else
    let* newest := py_last (events self) in
    let* oldest := py_first (events self) in
    let* elapsed_h :=
      py_truediv (total_seconds (newest - oldest)) (inject_Z 3600) in
    let* r := (if Qgtb elapsed_h 0
               then py_truediv (inject_Z len) elapsed_h
               else ret 0%Q) in
    ret (py_round2 r, self).

(** ** [str.strip()] *)

(** [str.isspace] on the code points below 256: TAB..CR, FS..US, space,
    NEL and the no-break space. *)
Definition py_isspace (c : ascii) : bool :=
  let n := Z.of_N (Ascii.N_of_ascii c) in
  ((9 <=? n) && (n <=? 13)) || ((28 <=? n) && (n <=? 32))
  || (n =? 133) || (n =? 160).

Fixpoint lstrip (s : string) : string :=
  match s with
  | EmptyString => EmptyString
  | String c s' => if py_isspace c then lstrip s' else s
  end.

Definition rstrip (s : string) : string := String.rev (lstrip (String.rev s)).

Definition strip (s : string) : string := rstrip (lstrip s).

(** Truthiness of a [str]. *)
Definition str_truthy (s : string) : bool :=
  match s with
  | EmptyString => false
  | String _ _ => true
  end.

(** ** The sqlite connection *)

Record job_row : Type := mkJob {
  j_id : Z;
  j_name : string;
  j_started_at : Z     (* isoformat of a datetime *)
}.

Record sample_row : Type := mkSample {
  s_id : Z;
  s_job_id : Z;
  s_ts : Z;            (* isoformat of a datetime *)
  s_accepted : Z;
  s_rejected : Z;
  s_total : Z;
  s_rate : Q
}.

Record tables : Type := mkTables {
  jobs : list job_row;
  samples : list sample_row
}.

(** One connection: [working] is what its cursors see, [committed] what a
    reopened store shows. *)
Record Connection : Type := mkConnection {
  committed : tables;
  working : tables
}.

Definition commit (c : Connection) : Connection :=
  mkConnection (working c) (working c).

(** [INTEGER PRIMARY KEY AUTOINCREMENT] on a table without deletions. *)
Definition next_id (ids : list Z) : Z := 1 + foldr Z.max 0 ids.

Definition insert_job (name : string) (started_at : Z) (c : Connection)
  : Connection :=
  let t := working c in
  let row := mkJob (next_id (map j_id (jobs t))) name started_at in
  mkConnection (committed c) (mkTables (jobs t ++ [row]) (samples t)).

Definition insert_sample (job_id ts accepted rejected total : Z) (rate : Q)
  (c : Connection) : Connection :=
  let t := working c in
  let row := mkSample (next_id (map s_id (samples t)))
                      job_id ts accepted rejected total rate in
  mkConnection (committed c) (mkTables (jobs t) (samples t ++ [row])).

(** [ORDER BY]: rows of equal key stay in insertion order. *)
Fixpoint order_insert {A : Type} (leb : A -> A -> bool) (x : A) (l : list A)
  : list A :=
  match l with
  | [] => [x]
  | y :: l' => if leb x y then x :: l else y :: order_insert leb x l'
  end.

Definition order_by {A : Type} (leb : A -> A -> bool) (l : list A) : list A :=
  foldr (order_insert leb) [] l.

(** [SELECT id, name, started_at FROM jobs ORDER BY started_at DESC] *)
Definition select_jobs (c : Connection) : list job_row :=
  order_by (fun a b => j_started_at b <=? j_started_at a) (jobs (working c)).

(** [SELECT ts, ... FROM samples WHERE job_id=? ORDER BY ts ASC] *)
Definition select_samples (jid : Z) (c : Connection) : list sample_row :=
  order_by (fun a b => s_ts a <=? s_ts b)
           (filter (fun r => s_job_id r =? jid) (samples (working c))).

(** ** class Dashboard *)

Inductive health_text : Type :=
| TextOK                       (* "OK" *)
| TextDataTimeout (thr : Q)    (* "DATA TIMEOUT > {thr:.1f}s" *)
| TextNoCycles (thr : Q).      (* "NO CYCLES > {thr:.1f}s" *)

Record Values : Type := mkValues {
  v_accepted : Z;
  v_rejected : Z;
  v_total : Z;
  v_rate : Q
}.

Record Dashboard : Type := mkDashboard {
  db : Connection;
  job_combo : list Z;               (* userData of the combo box items *)
  current_job_id : option Z;
  _pending : option Z;              (* [None]: the attribute is not there *)
  rate_calc : RateAverager;
  last_values : Values;
  last_data_ts : option Q;
  last_cycle_ts : option Q;
  prev_total : option Z;
  data_timeout : Q;                 (* value of the spin box *)
  cycle_timeout : Q;                (* value of the spin box *)
  health_tag : health_text * bool;  (* text and [ok] of the tag *)
  rate_history : list Q;            (* deque(maxlen=600) *)
  time_history : list Z             (* deque(maxlen=600) *)
}.

Definition set_db (x : Connection) (s : Dashboard) : Dashboard :=
  mkDashboard x (job_combo s) (current_job_id s) (_pending s) (rate_calc s)
    (last_values s) (last_data_ts s) (last_cycle_ts s) (prev_total s)
    (data_timeout s) (cycle_timeout s) (health_tag s) (rate_history s)
    (time_history s).

Definition set_job_combo (x : list Z) (s : Dashboard) : Dashboard :=
  mkDashboard (db s) x (current_job_id s) (_pending s) (rate_calc s)
    (last_values s) (last_data_ts s) (last_cycle_ts s) (prev_total s)
    (data_timeout s) (cycle_timeout s) (health_tag s) (rate_history s)
    (time_history s).

Definition set_current_job_id (x : option Z) (s : Dashboard) : Dashboard :=
  mkDashboard (db s) (job_combo s) x (_pending s) (rate_calc s)
    (last_values s) (last_data_ts s) (last_cycle_ts s) (prev_total s)
    (data_timeout s) (cycle_timeout s) (health_tag s) (rate_history s)
    (time_history s).

Definition set_pending (x : option Z) (s : Dashboard) : Dashboard :=
  mkDashboard (db s) (job_combo s) (current_job_id s) x (rate_calc s)
    (last_values s) (last_data_ts s) (last_cycle_ts s) (prev_total s)
    (data_timeout s) (cycle_timeout s) (health_tag s) (rate_history s)
    (time_history s).

Definition set_rate_calc (x : RateAverager) (s : Dashboard) : Dashboard :=
  mkDashboard (db s) (job_combo s) (current_job_id s) (_pending s) x
    (last_values s) (last_data_ts s) (last_cycle_ts s) (prev_total s)
    (data_timeout s) (cycle_timeout s) (health_tag s) (rate_history s)
    (time_history s).

Definition set_last_values (x : Values) (s : Dashboard) : Dashboard :=
  mkDashboard (db s) (job_combo s) (current_job_id s) (_pending s)
    (rate_calc s) x (last_data_ts s) (last_cycle_ts s) (prev_total s)
    (data_timeout s) (cycle_timeout s) (health_tag s) (rate_history s)
    (time_history s).

Definition set_last_data_ts (x : option Q) (s : Dashboard) : Dashboard :=
  mkDashboard (db s) (job_combo s) (current_job_id s) (_pending s)
    (rate_calc s) (last_values s) x (last_cycle_ts s) (prev_total s)
    (data_timeout s) (cycle_timeout s) (health_tag s) (rate_history s)
    (time_history s).

Definition set_last_cycle_ts (x : option Q) (s : Dashboard) : Dashboard :=
  mkDashboard (db s) (job_combo s) (current_job_id s) (_pending s)
    (rate_calc s) (last_values s) (last_data_ts s) x (prev_total s)
    (data_timeout s) (cycle_timeout s) (health_tag s) (rate_history s)
    (time_history s).

Definition set_prev_total (x : option Z) (s : Dashboard) : Dashboard :=
  mkDashboard (db s) (job_combo s) (current_job_id s) (_pending s)
    (rate_calc s) (last_values s) (last_data_ts s) (last_cycle_ts s) x
    (data_timeout s) (cycle_timeout s) (health_tag s) (rate_history s)
    (time_history s).

Definition set_timeouts (dt ct : Q) (s : Dashboard) : Dashboard :=
  mkDashboard (db s) (job_combo s) (current_job_id s) (_pending s)
    (rate_calc s) (last_values s) (last_data_ts s) (last_cycle_ts s)
    (prev_total s) dt ct (health_tag s) (rate_history s) (time_history s).

Definition set_health_tag (x : health_text * bool) (s : Dashboard)
  : Dashboard :=
  mkDashboard (db s) (job_combo s) (current_job_id s) (_pending s)
    (rate_calc s) (last_values s) (last_data_ts s) (last_cycle_ts s)
    (prev_total s) (data_timeout s) (cycle_timeout s) x (rate_history s)
    (time_history s).

Definition set_history (rh : list Q) (th : list Z) (s : Dashboard)
  : Dashboard :=
  mkDashboard (db s) (job_combo s) (current_job_id s) (_pending s)
    (rate_calc s) (last_values s) (last_data_ts s) (last_cycle_ts s)
    (prev_total s) (data_timeout s) (cycle_timeout s) (health_tag s) rh th.

(** [deque(maxlen=600).append(x)] *)
Definition deque_append {A : Type} (x : A) (l : list A) : list A :=
  let l' := l ++ [x] in
  if (600 <? length l')%nat then tail l' else l'.

(** [rows[-600:]] *)
Definition last_600 {A : Type} (rows : list A) : list A :=
  skipn (length rows - 600) rows.

(** The labels and the plot are widgets and stay outside, and with them
    the call of [update_plot] that ends [load_job_data]: it only redraws,
    reading the clock once when the loaded history is not empty.  What
    [load_job_data] leaves in the object are the two history deques. *)
Definition load_job_data (jid : Z) (self : Dashboard) : Dashboard :=
  let rows := select_samples jid (db self) in
  let recent := last_600 rows in
  set_history
    (foldl (fun h r => deque_append (s_rate r) h) [] recent)
    (foldl (fun h r => deque_append (s_ts r) h) [] recent)
    self.

Definition load_jobs (self : Dashboard) : Dashboard :=
  let rows := select_jobs (db self) in
  let self := set_job_combo (map j_id rows) self in
  match rows with
  | r :: _ =>
      let self := set_current_job_id (Some (j_id r)) self in
      load_job_data (j_id r) self
  | [] => set_current_job_id None self
  end.

(** [init_db]: the tables exist afterwards, with whatever an earlier run
    of the program [stored] in the file. *)
Definition init_db (stored : tables) : Connection :=
  commit (mkConnection stored stored).

(** [Dashboard.__init__], from the assignments of the attributes on. *)
Definition Dashboard_init (stored : tables) : Dashboard :=
  load_jobs
    (mkDashboard (init_db stored) [] None None
       (RateAverager_init 1) (mkValues 0 0 0 0)
       None None None
       5 60 (TextOK, true) [] []).

(** [new_job]; [name] and [ok] are what the input dialog returned. *)
Definition new_job (name : string) (ok : bool) (self : Dashboard)
  : M Dashboard :=
  if negb ok || negb (str_truthy (strip name)) then ret self
  else
    let* ts := datetime_now in
    let self := set_db (insert_job (strip name) ts (db self)) self in
    let self := set_db (commit (db self)) self in
    ret (load_jobs self).

(** [select_job]; [itemData] of an index outside the combo box is [None]. *)
Definition select_job (idx : Z) (self : Dashboard) : Dashboard :=
  let jid := if idx <? 0 then None
             else nth_error (job_combo self) (Z.to_nat idx) in
  match jid with
  | None => self
  | Some j => load_job_data j (set_current_job_id (Some j) self)
  end.

Definition append_sample (accepted rejected total : Z) (rate : Q)
  (self : Dashboard) : M Dashboard :=
  match current_job_id self with
  | None => ret self
  | Some jid =>
      if jid =? 0 then ret self
      else
        let* ts := datetime_now in
        let self :=
          set_db (insert_sample jid ts accepted rejected total rate (db self))
                 self in
        let pending := match _pending self with
                       | None => 0      (* not hasattr(self, "_pending") *)
                       | Some p => p
                       end in
        let pending := pending + 1 in
        if pending >=? 10
        then ret (set_pending (Some 0) (set_db (commit (db self)) self))
        else ret (set_pending (Some pending) self)
  end.

Definition on_state (connected : bool) (self : Dashboard) : M Dashboard :=
  if connected
  then let* now := time_time in ret (set_last_data_ts (Some now) self)
  else ret self.

Definition on_data (d : gmap string Z) (self : Dashboard) : M Dashboard :=
  let* now := time_time in
  let self := set_last_data_ts (Some now) self in
  let accepted := py_or (d !! "accepted"%string) 0 in
  let rejected := py_or (d !! "rejected"%string) 0 in
  let total := py_or (d !! "total"%string) (accepted + rejected) in
  let self :=
    match prev_total self with
    | None => set_last_cycle_ts (Some now) self
    | Some p => if total >? p then set_last_cycle_ts (Some now) self else self
    end in
  let self := set_prev_total (Some total) self in
  let* rc := update_from_total total (rate_calc self) in
  let* '(rate, rc) := hourly_rate rc in
  let self := set_rate_calc rc self in
  let* t := datetime_now in
  let self :=
    set_history (deque_append rate (rate_history self))
                (deque_append t (time_history self)) self in
  ret (set_last_values (mkValues accepted rejected total rate) self).

Definition check_health (self : Dashboard) : M Dashboard :=
  let* now := time_time in
  let msg := TextOK in
  let ok := true in
  let '(msg, ok) :=
    match last_data_ts self with
    | Some last =>
        if Qgtb (now - last) (data_timeout self)
        then (TextDataTimeout (data_timeout self), false)
        else (msg, ok)
    | None => (msg, ok)
    end in
  let '(msg, ok) :=
    if ok then
      match last_cycle_ts self with
      | Some last =>
          if Qgtb (now - last) (cycle_timeout self)
          then (TextNoCycles (cycle_timeout self), false)
          else (msg, ok)
      | None => (msg, ok)
      end
    else (msg, ok) in
  ret (set_health_tag (msg, ok) self).

Definition log_sample_tick (self : Dashboard) : M Dashboard :=
  let v := last_values self in
  append_sample (v_accepted v) (v_rejected v) (v_total v) (v_rate v) self.

(** [closeEvent]: what the store holds once the connection is closed. *)
Definition closeEvent (self : Dashboard) : tables :=
  match _pending self with
  | Some p => if p =? 0 then committed (db self)
              else committed (commit (db self))
  | None => committed (db self)
  end.

(** ** The event loop *)

(** What the Qt event loop can deliver to the window: the two signals of
    the worker, the three timers' slots that touch the model, the buttons
    and the spin boxes. *)
Inductive call : Type :=
| OnState (connected : bool)
| OnData (d : gmap string Z)
| CheckHealth
| LogSampleTick
| NewJob (name : string) (ok : bool)
| SelectJob (idx : Z)
| SetTimeouts (dt ct : Q).

Definition deliver (c : call) (self : Dashboard) : M Dashboard :=
  match c with
  | OnState connected => on_state connected self
  | OnData d => on_data d self
  | CheckHealth => check_health self
  | LogSampleTick => log_sample_tick self
  | NewJob name ok => new_job name ok self
  | SelectJob idx => ret (select_job idx self)
  | SetTimeouts dt ct => ret (set_timeouts dt ct self)
  end.

Fixpoint run (cs : list call) (self : Dashboard) : M Dashboard :=
  match cs with
  | [] => ret self
  | c :: cs' => let* self := deliver c self in run cs' self
  end.

(** Calls on a [RateAverager], in the order a client issues them. *)
Inductive ra_call : Type :=
| Update (total_count : Z)
| Rate.

Definition ra_deliver (c : ra_call) (self : RateAverager) : M RateAverager :=
  match c with
  | Update total_count => update_from_total total_count self
  | Rate => let* '(_, self) := hourly_rate self in ret self
  end.

Fixpoint ra_run (cs : list ra_call) (self : RateAverager) : M RateAverager :=
  match cs with
  | [] => ret self
  | c :: cs' => let* self := ra_deliver c self in ra_run cs' self
  end.

(** ** Assumptions on the environment *)

(** A system clock that is never set back. *)
Definition monotone (w : World) : Prop :=
  forall i j : nat, (i <= j)%nat -> clock w i <= clock w j.

(** The readings [n], [n+1], ... that [k] successive calls of
    [datetime.now()] return. *)
Definition readings (w : World) (k : nat) : list Z :=
  map (fun i => clock w (ticks w + i)%nat) (seq 0 k).

Definition later (w : World) (k : nat) : World :=
  mkWorld (clock w) (ticks w + k)%nat.

(** [time.time()] at the next reading. *)
Definition seconds_now (w : World) : Q :=
  (inject_Z (clock w (ticks w)) / inject_Z 1000000)%Q.

(** ** Notions used in the statements *)

(** A clock that advances by one microsecond from one reading to the
    next. *)
Definition ticking : World := mkWorld (fun i => Z.of_nat i) 0.

(** The window of a [RateAverager] that was fed by a clock that is never
    set back: the events are in order, and none is ahead of the clock. *)
Definition in_order (w : World) (ev : list Z) : Prop :=
  StronglySorted Z.le ev /\ Forall (fun e => e <= clock w (ticks w)) ev.




(** The total that [on_data] derives from the received dict. *)
Definition derived_total (d : gmap string Z) : Z :=
  py_or (d !! "total"%string)
        (py_or (d !! "accepted"%string) 0 + py_or (d !! "rejected"%string) 0).

(** A dashboard on an empty store where data arrived 10 s and a cycle
    100 s before the tick at reading 200 s. *)
Definition stalled : Dashboard :=
  mkDashboard (init_db (mkTables [] [])) [] None None (RateAverager_init 1)
    (mkValues 0 0 7 0) (Some 190%Q) (Some 100%Q) (Some 7) 5 60
    (TextOK, true) [] [].

Definition at_200s : World := mkWorld (fun _ => 200000000) 0.

Definition empty_store : tables := mkTables [] [].

(** What holds of the window object between two deliveries of the event
    loop. *)
Definition well_formed (s : Dashboard) : Prop :=
  window (rate_calc s) = 3600000000
  /\ (last_data_ts s = None -> last_cycle_ts s = None)
  /\ (prev_total s = None -> last_cycle_ts s = None)
  /\ match _pending s with
     | None => True
     | Some p => 0 <= p < 10
     end.

(** The attributes [well_formed] speaks of. *)
Definition core (s : Dashboard)
  : RateAverager * option Q * option Q * option Z * option Z :=
  (rate_calc s, last_data_ts s, last_cycle_ts s, prev_total s, _pending s).

(** One hour between two readings of the clock. *)
Definition hourly : World := mkWorld (fun i => 3600000000 * Z.of_nat i) 0.

(** No telemetry sample among the calls. *)
Definition no_data (cs : list call) : bool :=
  forallb (fun c => match c with OnData _ => false | _ => true end) cs.

(** A frame whose total register reads 0 while parts were counted. *)
Definition frame_zero_total : gmap string Z :=
  <["total"%string := 0]>
    (<["accepted"%string := 3]> (<["rejected"%string := 1]> ∅)).

(** Successive [append_sample] calls, one per entry of [xs]. *)
Fixpoint append_samples (xs : list Values) (self : Dashboard) : M Dashboard :=
  match xs with
  | [] => ret self
  | v :: xs' =>
      let* self := append_sample (v_accepted v) (v_rejected v) (v_total v)
                                 (v_rate v) self in
      append_samples xs' self
  end.

(** The pending counter as [append_sample] reads it. *)
Definition pending_count (s : Dashboard) : Z :=
  match _pending s with
  | None => 0
  | Some p => p
  end.

Definition row_values (r : sample_row) : Values :=
  mkValues (s_accepted r) (s_rejected r) (s_total r) (s_rate r).

(** The window after the operator created the first job on an empty
    store. *)
Definition logging : Dashboard :=
  match new_job "Line2"%string true (Dashboard_init empty_store) ticking with
  | Return (s, _) => s
  | Raise _ => Dashboard_init empty_store
  end.

Definition ten_samples : list Values :=
  map (fun i => mkValues i 0 i 0) [1; 2; 3; 4; 5; 6; 7; 8; 9; 10].


(** The events that a sequence of totals adds when nothing is trimmed:
    the sum of the increases from one total to the next. *)
Fixpoint increases (last : Z) (totals : list Z) : Z :=
  match totals with
  | [] => 0
  | t :: totals' => Z.max 0 (t - last) + increases t totals'
  end.

(** The row that [append_sample] inserts. *)
Definition new_sample (jid ts : Z) (v : Values) (c : Connection) : sample_row :=
  mkSample (next_id (map s_id (samples (working c)))) jid ts
           (v_accepted v) (v_rejected v) (v_total v) (v_rate v).


(** What [load_jobs], [load_job_data] and [select_job] leave alone:
    everything but the combo box, the current job and the histories. *)
Definition frame (s : Dashboard) :=
  (db s, _pending s, rate_calc s, last_values s, last_data_ts s,
   last_cycle_ts s, prev_total s, data_timeout s, cycle_timeout s,
   health_tag s).

(** The store is never ahead of its committed content by more than the
    pending counter says. *)
Definition durable (s : Dashboard) : Prop :=
  jobs (committed (db s)) = jobs (working (db s))
  /\ exists lost : list sample_row,
       samples (working (db s)) = samples (committed (db s)) ++ lost
       /\ Z.of_nat (length lost) <= pending_count s.

(** The references of the window and of the store resolve: the combo box
    and the current job name jobs of the store, and every sample that
    was not already in the store at start-up belongs to a job of the
    store. *)
Definition references_resolve (stored : tables) (s : Dashboard) : Prop :=
  Forall (fun j => In j (map j_id (jobs (working (db s))))) (job_combo s)
  /\ (forall j : Z, current_job_id s = Some j ->
                    In j (map j_id (jobs (working (db s)))))
  /\ Forall (fun r => In r (samples stored)
                      \/ In (s_job_id r) (map j_id (jobs (working (db s)))))
            (samples (working (db s))).

(** The two history deques of the plot. *)
Definition histories_aligned (s : Dashboard) : Prop :=
  length (rate_history s) = length (time_history s)
  /\ (length (rate_history s) <= 600)%nat.

(** What the window shows agrees with what the rate estimator holds. *)
Definition totals_agree (s : Dashboard) : Prop :=
  prev_total s = _last_total (rate_calc s)
  /\ (0 <= v_rate (last_values s))%Q.

(** What a connection notification, a health tick and a change of the
    thresholds leave alone. *)
Definition quiet_part (s : Dashboard) :=
  (db s, _pending s, job_combo s, current_job_id s, rate_history s,
   time_history s, rate_calc s, prev_total s, last_values s).

(** The window of [logging] after one more logging tick: one sample is
    inserted and not yet committed. *)
Definition one_pending : Dashboard :=
  set_pending (Some 1)
    (set_db (insert_sample 1 1 0 0 0 0 (db logging)) logging).

(** ** class RTDEThread *)

(** The registers that one round of getters reads. *)
Record Frame : Type := mkFrame {
  f_robot_mode : Z;
  f_runtime_state : Z;
  f_accepted : Z;
  f_rejected : Z;
  f_total : Z
}.


(** What the thread cannot control: the stop flag, which the window sets
    from its own thread, and the robot. *)
Record Device : Type := mkDevice {
  stop_requested : nat -> bool;
    (* [self._stop] at its i-th read *)
  connect_result : nat -> option string;
    (* i-th [RTDEReceiveInterface(...)]: [None] when it returns, the text
       of the exception when it raises *)
  poll_result : nat -> Frame + string
    (* i-th round of getters: the registers, or the text of the exception
       that one of them raises *)
}.

(** What the thread does to the outside. *)
Inductive action : Type :=
| Connect                                  (* RTDEReceiveInterface(ip, frequency=freq) *)
| Disconnect (r : nat)                     (* disconnect() of the receiver of attempt r *)
| Sleep (seconds : Q)                      (* time.sleep *)
| EmitState (connected : bool) (msg : string)
| EmitData (pkg : Frame) (timestamp : Q).

Record Thread : Type := mkThread {
  receiver : option nat;   (* self.receiver, named by the attempt that made it *)
  n_stop : nat;            (* answers of the device consumed so far *)
  n_connect : nat;
  n_poll : nat;
  trace : list action;     (* what was done so far, oldest first *)
  world : World
}.

Definition RTDEThread_init (w : World) : Thread := mkThread None 0 0 0 [] w.

Definition act (a : action) (t : Thread) : Thread :=
  mkThread (receiver t) (n_stop t) (n_connect t) (n_poll t) (trace t ++ [a])
           (world t).

Definition stop_read (t : Thread) : Thread :=
  mkThread (receiver t) (S (n_stop t)) (n_connect t) (n_poll t) (trace t)
           (world t).

Definition connect_read (t : Thread) : Thread :=
  mkThread (receiver t) (n_stop t) (S (n_connect t)) (n_poll t) (trace t)
           (world t).

Definition poll_read (t : Thread) : Thread :=
  mkThread (receiver t) (n_stop t) (n_connect t) (S (n_poll t)) (trace t)
           (world t).

Definition set_receiver (r : option nat) (t : Thread) : Thread :=
  mkThread r (n_stop t) (n_connect t) (n_poll t) (trace t) (world t).

(** [time.time()] in the thread. *)
Definition thread_time (t : Thread) : Q * Thread :=
  (seconds_now (world t),
   mkThread (receiver t) (n_stop t) (n_connect t) (n_poll t) (trace t)
            (later (world t) 1)).

Inductive session_end : Type :=
| StopSeen             (* the inner [while not self._stop] ended *)
| Failed (e : string)  (* an exception left the inner loop *)
| Unfinished.          (* the fuel ran out *)

(** The inner loop of [run]; the third component of the result is the
    local [last_emit]. *)
Fixpoint stream (dev : Device) (fuel : nat) (last_emit : Q) (t : Thread)
  : session_end * Q * Thread :=
  match fuel with
  | O => (Unfinished, last_emit, t)
  | S fuel' =>
      if stop_requested dev (n_stop t) then (StopSeen, last_emit, stop_read t)
      else
        let t := stop_read t in
        match poll_result dev (n_poll t) with
        | inr e => (Failed e, last_emit, poll_read t)
        | inl pkg =>
            let t := poll_read t in
            let '(timestamp, t) := thread_time t in
            let '(now, t) := thread_time t in
            let '(last_emit, t) :=
              if Qle_bool (1 # 10) (now - last_emit)
              then (now, act (EmitData pkg timestamp) t)
              else (last_emit, t) in
            let t := act (Sleep (2 # 100)) t in
            stream dev fuel' last_emit t
        end
  end.

(** The [except Exception as e] clause of [run]. *)
Definition reconnecting (e : string) (t : Thread) : Thread :=
  act (Sleep (15 # 10))
      (act (EmitState false ("RTDE reconnecting: " +:+ e)) t).

(** The [finally] clause of [run]; an exception of [disconnect] is
    swallowed. *)
Definition finally (t : Thread) : Thread :=
  match receiver t with
  | Some r => act (Disconnect r) t
  | None => t
  end.

Inductive ended : Type :=
| Finished
| OutOfFuel.

(** The outer loop of [run]. *)
Fixpoint run_loop (dev : Device) (fuel : nat) (t : Thread) : ended * Thread :=
  match fuel with
  | O => (OutOfFuel, t)
  | S fuel' =>
      if stop_requested dev (n_stop t) then (Finished, stop_read t)
      else
        let t := stop_read t in
        let attempt := n_connect t in
        let t := connect_read (act Connect t) in
        match connect_result dev attempt with
        | Some e => run_loop dev fuel' (finally (reconnecting e t))
        | None =>
            let t := set_receiver (Some attempt) t in
            let t := act (EmitState true "Connected") t in
            match stream dev fuel' 0 t with
            | (StopSeen, _, t) => run_loop dev fuel' (finally t)
            | (Failed e, _, t) => run_loop dev fuel' (finally (reconnecting e t))
            | (Unfinished, _, t) => (OutOfFuel, t)
            end
        end
  end.

(** [RTDEThread.run]; [import_error] is [RTDE_IMPORT_ERROR] when the
    import of the RTDE module failed. *)
Definition RTDEThread_run (import_error : option string) (dev : Device)
  (fuel : nat) (t : Thread) : ended * Thread :=
  match import_error with
  | Some e =>
      (Finished, act (EmitState false ("RTDE module import failed: " +:+ e)) t)
  | None => run_loop dev fuel t
  end.

(** The stop flag stays set once [stop()] was called. *)
Definition stop_latched (dev : Device) (n : nat) : Prop :=
  forall i : nat, (n <= i)%nat -> stop_requested dev i = true.

(** The handle that the thread holds was released by its last action. *)
Definition released (t : Thread) : Prop :=
  match receiver t with
  | Some r => exists before : list action, trace t = before ++ [Disconnect r]
  | None => forall msg : string, ~ In (EmitState true msg) (trace t)
  end.

(** What [k] failed connection attempts leave in the trace. *)
Definition failed_attempts (errors : nat -> string) (from k : nat)
  : list action :=
  flat_map (fun i => [Connect;
                      EmitState false ("RTDE reconnecting: " +:+ errors i);
                      Sleep (15 # 10)])
           (seq from k).

(** A robot that refuses the first three connections, and a window that
    asks the thread to stop once the fourth is made. *)
Definition flaky : Device :=
  mkDevice (fun i => (4 <=? i)%nat)
           (fun i => if (i <? 3)%nat then Some "refused"%string else None)
           (fun _ => inl (mkFrame 4 2 3 1 4)).

(** The frames among the actions. *)
Fixpoint count_data (l : list action) : nat :=
  match l with
  | [] => 0
  | EmitData _ _ :: l' => S (count_data l')
  | _ :: l' => count_data l'
  end.

(** The i-th reading of the clock, in seconds. *)
Definition seconds_at (w : World) (i : nat) : Q :=
  (inject_Z (clock w i) / inject_Z 1000000)%Q.

(** A clock that advances by 60 ms from one reading to the next, and a
    robot that always answers. *)
Definition every_60ms : World := mkWorld (fun i => 60000 * Z.of_nat i) 0.

Definition steady : Device :=
  mkDevice (fun i => (5 <=? i)%nat) (fun _ => None)
           (fun _ => inl (mkFrame 4 2 3 1 4)).

(** ** [human_robot_mode] *)

(** [str(n)] for an int. *)
Definition str_int (n : Z) : string :=
  DecimalString.NilEmpty.string_of_int (Z.to_int n).

(** The dict [mapping] of [human_robot_mode]. *)
Definition mapping : gmap Z string :=
  list_to_map [(0, "NO CTRL"); (1, "BOOT"); (2, "STANDBY"); (3, "READY");
               (4, "RUNNING"); (5, "PAUSED"); (6, "ERROR")]%string.

Definition human_robot_mode (mode : Z) : string :=
  default ("MODE " +:+ str_int mode)%string (mapping !! mode).

(** One second between two readings of the clock. *)
Definition every_second : World :=
  mkWorld (fun i => 1000000 * Z.of_nat i) 0.

(** The counters of a frame, as [on_data] receives them. *)
Definition frame_of (accepted rejected total : Z) : gmap string Z :=
  <["total"%string := total]>
    (<["accepted"%string := accepted]> (<["rejected"%string := rejected]> ∅)).

(** A short session: a job is created, a frame with total 5 arrives and
    is logged, then a frame with total 8 arrives. *)
Definition short_session : list call :=
  [NewJob "Line2" true; OnData (frame_of 5 0 5); LogSampleTick;
   OnData (frame_of 7 1 8)].

(** The window and the clock after the short session. *)
Definition after_short_session : Dashboard * World :=
  match run short_session (Dashboard_init empty_store) every_second with
  | Return sw => sw
  | Raise _ => (Dashboard_init empty_store, every_second)
  end.

(** * Properties *)

(** ** The monad *)

Lemma bind_Return {A B : Type} (m : M A) (k : A -> M B) (w w' : World) (a : A) :
  m w = Return (a, w') -> bind m k w = k a w'.
Proof. intros H. unfold bind. now rewrite H. Qed.

Lemma later_0 (w : World) : later w 0 = w.
Proof. destruct w as [c n]. unfold later. simpl. f_equal. lia. Qed.

Lemma later_later (w : World) (a b : nat) : later (later w a) b = later w (a + b).
Proof. unfold later. simpl. f_equal. lia. Qed.

Lemma datetime_now_eq (w : World) :
  datetime_now w = Return (clock w (ticks w), later w 1).
Proof. unfold datetime_now, read_clock, later. do 3 f_equal. lia. Qed.

Lemma time_time_eq (w : World) :
  time_time w = Return (seconds_now w, later w 1).
Proof. unfold time_time, read_clock, bind, ret, later, seconds_now. do 3 f_equal. lia. Qed.

Lemma monotone_later (w : World) (k : nat) : monotone w -> monotone (later w k).
Proof. intros H i j Hij. now apply H. Qed.

(** ** RateAverager *)

Lemma readings_S (w : World) (k : nat) :
  readings w (S k) = clock w (ticks w) :: readings (later w 1) k.
Proof.
  unfold readings. simpl. f_equal.
  - f_equal. lia.
  - rewrite <- seq_shift, map_map. apply map_ext. intros i. f_equal. lia.
Qed.

Lemma append_now_eq (k : nat) : forall (ev : list Z) (w : World),
  append_now k ev w = Return (ev ++ readings w k, later w k).
Proof.
  induction k as [|k IH]; intros ev w.
  - simpl. unfold ret, readings. simpl. now rewrite app_nil_r, later_0.
  - simpl. rewrite (bind_Return _ _ _ _ _ (datetime_now_eq w)).
    rewrite IH, readings_S, later_later, <- app_assoc. reflexivity.
Qed.

Lemma _trim_eq (self : RateAverager) (w : World) :
  _trim self w =
  Return (mkRateAverager
            (popleft_while_before (clock w (ticks w) - window self) (events self))
            (window self) (_last_total self), later w 1).
Proof.
  unfold _trim. rewrite (bind_Return _ _ _ _ _ (datetime_now_eq w)). reflexivity.
Qed.

Lemma popleft_suffix (cutoff : Z) (ev : list Z) :
  exists dropped : list Z,
    ev = dropped ++ popleft_while_before cutoff ev /\
    Forall (fun e => e < cutoff) dropped.
Proof.
  induction ev as [|e ev IH]; simpl.
  - exists []. split; [reflexivity | constructor].
  - destruct (Z.ltb_spec e cutoff) as [Hlt|Hge].
    + destruct IH as (dropped & Heq & Hall).
      exists (e :: dropped). split.
      * simpl. now rewrite <- Heq.
      * now constructor.
    + exists []. split; [reflexivity | constructor].
Qed.

Lemma popleft_length (cutoff : Z) (ev : list Z) :
  (length (popleft_while_before cutoff ev) <= length ev)%nat.
Proof.
  destruct (popleft_suffix cutoff ev) as (dropped & Heq & _).
  rewrite Heq at 2. rewrite length_app. lia.
Qed.

Lemma popleft_keeps_recent (cutoff : Z) (old new : list Z) :
  Forall (fun e => cutoff <= e) new ->
  popleft_while_before cutoff (old ++ new) =
  popleft_while_before cutoff old ++ new.
Proof.
  intros Hnew. induction old as [|e old IH]; simpl.
  - destruct Hnew as [|e new He Hnew]; simpl; [reflexivity|].
    destruct (Z.ltb_spec e cutoff); [lia | reflexivity].
  - destruct (Z.ltb_spec e cutoff); [exact IH | reflexivity].
Qed.

Lemma readings_length (w : World) (k : nat) : length (readings w k) = k.
Proof. unfold readings. now rewrite length_map, length_seq. Qed.

Lemma readings_frozen (w : World) (k : nat) (t : Z) :
  (forall i : nat, (i < k)%nat -> clock w (ticks w + i)%nat = t) ->
  readings w k = repeat t k.
Proof.
  revert w. induction k as [|k IH]; intros w Hfrozen; [reflexivity|].
  rewrite readings_S. simpl. f_equal.
  - rewrite <- (Hfrozen 0%nat) by lia. f_equal. lia.
  - apply IH. intros i Hi. simpl.
    rewrite <- (Hfrozen (S i)) by lia. f_equal. lia.
Qed.

(** What one call does once a baseline is recorded: [k] readings are
    appended, where [k] is the increase (none without increase), the
    baseline moves, and the front is trimmed against one more reading. *)
Lemma update_from_total_eq (total_count last : Z) (self : RateAverager)
  (w : World) :
  _last_total self = Some last ->
  let k := if total_count >? last then range_len (total_count - last)
           else 0%nat in
  update_from_total total_count self w =
  Return (mkRateAverager
            (popleft_while_before (clock w (ticks w + k)%nat - window self)
                                 (events self ++ readings w k))
            (window self) (Some total_count),
          later w (S k)).
Proof.
  intros Hlast k. unfold update_from_total. rewrite Hlast.
  assert (Hev : (if total_count >? last
                 then append_now (range_len (total_count - last)) (events self)
                 else ret (events self)) w
                = Return (events self ++ readings w k, later w k)).
  { subst k. destruct (total_count >? last).
    - apply append_now_eq.
    - unfold ret, readings. simpl. now rewrite app_nil_r, later_0. }
  rewrite (bind_Return _ _ _ _ _ Hev), _trim_eq. simpl.
  rewrite later_later. do 3 f_equal. lia.
Qed.

Lemma update_from_total_first (total_count : Z) (self : RateAverager)
  (w : World) :
  _last_total self = None ->
  update_from_total total_count self w =
  Return (mkRateAverager (events self) (window self) (Some total_count), w).
Proof. intros H. unfold update_from_total. now rewrite H. Qed.

(** C2, as stated, fails: the timestamps of one burst are separate clock
    readings.  With the baseline at 0 and the clock advancing between the
    readings, [update_from_total 2] records the events 0 and 1, which are
    not two copies of any one time [t]. *)
Lemma burst_timestamps_not_coincident :
  update_from_total 2 (mkRateAverager [] 3600000000 (Some 0)) ticking
  = Return (mkRateAverager [0; 1] 3600000000 (Some 2), later ticking 3)
  /\ forall t : Z, [0; 1] <> repeat t 2.
Proof.
  split.
  - reflexivity.
  - intros t H. simpl in H. injection H as H0 H1. lia.
Qed.

(** C2 (amended): with a recorded baseline [last], a call with total
    [last + k], [k > 0], returns; the baseline becomes the new total;
    exactly [k] timestamps are appended, the i-th being the clock reading
    taken at its own append, before the front of the window is trimmed
    against the next reading.  The new events all survive the trim when
    none of them is older than the window, and they are [k] copies of [t]
    when the clock reads [t] throughout the call. *)
Theorem update_from_total_burst (self : RateAverager) (w : World) (last : Z)
  (k : nat) :
  _last_total self = Some last ->
  (0 < k)%nat ->
  exists self' : RateAverager,
    update_from_total (last + Z.of_nat k) self w = Return (self', later w (S k))
    /\ _last_total self' = Some (last + Z.of_nat k)
    /\ window self' = window self
    /\ length (readings w k) = k
    /\ events self' =
       popleft_while_before (clock w (ticks w + k)%nat - window self)
                            (events self ++ readings w k)
    /\ (Forall (fun e => clock w (ticks w + k)%nat - window self <= e)
               (readings w k) ->
        events self' =
        popleft_while_before (clock w (ticks w + k)%nat - window self)
                             (events self) ++ readings w k)
    /\ (forall t : Z,
          0 <= window self ->
          (forall i : nat, (i <= k)%nat -> clock w (ticks w + i)%nat = t) ->
          events self' =
          popleft_while_before (t - window self) (events self) ++ repeat t k).
Proof.
  intros Hlast Hk.
  pose proof (update_from_total_eq (last + Z.of_nat k) last self w Hlast) as Heq.
  cbv zeta in Heq.
  replace (last + Z.of_nat k >? last) with true in Heq
    by (symmetry; apply Z.gtb_lt; lia).
  replace (range_len (last + Z.of_nat k - last)) with k in Heq
    by (unfold range_len; lia).
  eexists. split; [exact Heq|]. simpl.
  split; [reflexivity|]. split; [reflexivity|].
  split; [apply readings_length|]. split; [reflexivity|]. split.
  - apply popleft_keeps_recent.
  - intros t Hwin Hfrozen.
    rewrite (readings_frozen w k t) by (intros i Hi; apply Hfrozen; lia).
    rewrite (Hfrozen k) by lia.
    apply popleft_keeps_recent.
    clear -Hwin. induction k as [|k IH]; simpl; constructor; [lia | exact IH].
Qed.

Lemma update_from_total_burst_witness :
  exists self' : RateAverager,
    update_from_total (4 + Z.of_nat 3)
      (mkRateAverager [0] 3600000000 (Some 4)) ticking
    = Return (self', later ticking 4)
    /\ _last_total self' = Some (4 + Z.of_nat 3)
    /\ window self' = 3600000000
    /\ length (readings ticking 3) = 3%nat
    /\ events self' =
       popleft_while_before (3 - 3600000000) ([0] ++ readings ticking 3)
    /\ (Forall (fun e => 3 - 3600000000 <= e) (readings ticking 3) ->
        events self' =
        popleft_while_before (3 - 3600000000) [0] ++ readings ticking 3)
    /\ (forall t : Z,
          0 <= 3600000000 ->
          (forall i : nat, (i <= 3)%nat -> Z.of_nat (0 + i) = t) ->
          events self' =
          popleft_while_before (t - 3600000000) [0] ++ repeat t 3).
Proof.
  apply (update_from_total_burst
           (mkRateAverager [0] 3600000000 (Some 4)) ticking 4 3).
  - reflexivity.
  - lia.
Defined.

(** C3: with a recorded baseline [last], a call with a total that is not
    above it returns normally, records no event (what is left of the
    window is the old window without the events the trim removed) and
    moves the baseline to the given total. *)
Theorem update_from_total_no_increase (self : RateAverager) (w : World)
  (last total_count : Z) :
  _last_total self = Some last ->
  total_count <= last ->
  exists self' : RateAverager,
    update_from_total total_count self w = Return (self', later w 1)
    /\ _last_total self' = Some total_count
    /\ window self' = window self
    /\ events self' =
       popleft_while_before (clock w (ticks w) - window self) (events self)
    /\ (exists dropped : list Z, events self = dropped ++ events self')
    /\ (length (events self') <= length (events self))%nat.
Proof.
  intros Hlast Hle.
  pose proof (update_from_total_eq total_count last self w Hlast) as Heq.
  cbv zeta in Heq.
  replace (total_count >? last) with false in Heq
    by (rewrite Z.gtb_ltb; symmetry; apply Z.ltb_ge; lia).
  unfold readings in Heq. simpl in Heq.
  rewrite app_nil_r, Nat.add_0_r in Heq.
  eexists. split; [exact Heq|]. simpl.
  repeat split.
  - destruct (popleft_suffix (clock w (ticks w) - window self) (events self))
      as (dropped & Hd & _).
    now exists dropped.
  - apply popleft_length.
Qed.

Lemma update_from_total_no_increase_witness :
  exists self' : RateAverager,
    update_from_total 2 (mkRateAverager [0; 5] 3 (Some 7)) (later ticking 4)
    = Return (self', later (later ticking 4) 1)
    /\ _last_total self' = Some 2
    /\ window self' = 3
    /\ events self' = popleft_while_before (4 - 3) [0; 5]
    /\ (exists dropped : list Z, [0; 5] = dropped ++ events self')
    /\ (length (events self') <= 2)%nat.
Proof.
  apply (update_from_total_no_increase
           (mkRateAverager [0; 5] 3 (Some 7)) (later ticking 4) 7 2).
  - reflexivity.
  - lia.
Defined.
Lemma total_seconds_hours_zero (z : Z) :
  Qeq_bool (total_seconds z / inject_Z 3600) 0 = (z =? 0).
Proof.
  unfold Qeq_bool, total_seconds, Qdiv, Qmult, Qinv, inject_Z. simpl.
  destruct (Z.eqb_spec z 0) as [->|Hz].
  - reflexivity.
  - apply Z.eqb_neq. lia.
Qed.

Lemma total_seconds_hours_pos (z : Z) :
  Qgtb (total_seconds z / inject_Z 3600) 0 = (0 <? z).
Proof.
  unfold Qgtb, Qle_bool, total_seconds, Qdiv, Qmult, Qinv, inject_Z. simpl.
  destruct (Z.ltb_spec 0 z) as [Hz|Hz].
  - apply negb_true_iff, Z.leb_gt. rewrite Z.mul_0_l, !Z.mul_1_r. exact Hz.
  - apply negb_false_iff, Z.leb_le. rewrite Z.mul_0_l, !Z.mul_1_r. exact Hz.
Qed.

Lemma round_half_even_nonneg (q : Q) : (0 <= q)%Q -> 0 <= round_half_even q.
Proof.
  intros Hq. unfold round_half_even.
  assert (Hf : 0 <= Qfloor q).
  { change 0 with (Qfloor 0). now apply Qfloor_resp_le. }
  destruct (q - inject_Z (Qfloor q) ?= 1 # 2)%Q; [destruct (Z.even _)| |]; lia.
Qed.

Lemma py_round2_nonneg (q : Q) : (0 <= q)%Q -> (0 <= py_round2 q)%Q.
Proof.
  intros Hq. unfold py_round2.
  assert (H : 0 <= round_half_even (q * inject_Z 100)).
  { apply round_half_even_nonneg. apply Qmult_le_0_compat; [exact Hq | easy]. }
  unfold Qle, Qdiv, Qmult, Qinv, inject_Z. simpl.
  rewrite !Z.mul_1_r. exact H.
Qed.

Lemma py_truediv_3600 (x : Q) (w : World) :
  py_truediv x (inject_Z 3600) w = Return ((x / inject_Z 3600)%Q, w).
Proof. reflexivity. Qed.

Lemma last_cons_default (x d : Z) (l : list Z) :
  List.last (x :: l) d = List.last l x.
Proof.
  revert x d. induction l as [|y l IH]; intros x d; [reflexivity|].
  change (List.last (x :: y :: l) d) with (List.last (y :: l) d).
  now rewrite !IH.
Qed.

(** [hourly_rate] without the monad: the window is trimmed against one
    clock reading; the division by the window length is the only
    operation that can raise. *)
Lemma hourly_rate_eq (self : RateAverager) (w : World) :
  let ev := popleft_while_before (clock w (ticks w) - window self)
                                 (events self) in
  let self' := mkRateAverager ev (window self) (_last_total self) in
  let len := inject_Z (Z.of_nat (length ev)) in
  let elapsed := List.last ev 0 - hd 0 ev in
  hourly_rate self w =
  if (length ev <=? 1)%nat then
    if window self =? 0 then Raise ZeroDivisionError
    else Return ((py_round2 (len / (total_seconds (window self) / inject_Z 3600)),
                  self'), later w 1)
  else
    Return ((py_round2 (if 0 <? elapsed
                        then len / (total_seconds elapsed / inject_Z 3600)
                        else 0),
             self'), later w 1).
Proof.
  intros ev self' len elapsed. unfold hourly_rate.
  rewrite (bind_Return _ _ _ _ _ (_trim_eq self w)).
  cbv beta zeta. cbn [events window]. fold ev.
  destruct (Nat.leb_spec (length ev) 1) as [Hlen|Hlen].
  - replace (Z.of_nat (length ev) <=? 1) with true
      by (symmetry; apply Z.leb_le; lia).
    cbv iota.
    rewrite (bind_Return _ _ _ _ _ (py_truediv_3600 _ _)).
    unfold py_truediv at 1, bind at 1.
    rewrite total_seconds_hours_zero.
    destruct (window self =? 0); reflexivity.
  - replace (Z.of_nat (length ev) <=? 1) with false
      by (symmetry; apply Z.leb_gt; lia).
    cbv iota.
    destruct ev as [|x l] eqn:Hev; [simpl in Hlen; lia|].
    unfold py_last, py_first, bind at 1, ret at 1, bind at 1, ret at 1.
    rewrite (bind_Return _ _ _ _ _ (py_truediv_3600 _ _)).
    assert (Hel : List.last l x - x = elapsed).
    { unfold elapsed. now rewrite last_cons_default. }
    rewrite Hel, total_seconds_hours_pos.
    destruct (Z.ltb_spec 0 elapsed) as [Hpos|Hnpos].
    + unfold py_truediv, bind. rewrite total_seconds_hours_zero.
      replace (elapsed =? 0) with false by (symmetry; apply Z.eqb_neq; lia).
      reflexivity.
    + reflexivity.
Qed.

Lemma StronglySorted_snoc (ev : list Z) (t : Z) :
  StronglySorted Z.le ev -> Forall (fun e => e <= t) ev ->
  StronglySorted Z.le (ev ++ [t]).
Proof.
  induction 1 as [|e ev Hs IH He]; intros Hall; simpl.
  - repeat constructor.
  - inversion Hall as [|? ? Het Hall']; subst.
    constructor; [now apply IH|].
    apply Forall_app. split; [exact He | now constructor].
Qed.

Lemma in_order_later (w : World) (k : nat) (ev : list Z) :
  monotone w -> in_order w ev -> in_order (later w k) ev.
Proof.
  intros Hmono [Hs Hall]. split; [exact Hs|].
  apply (Forall_impl _ _ _ Hall). intros e He. simpl.
  pose proof (Hmono (ticks w) (ticks w + k)%nat). lia.
Qed.

Lemma in_order_readings (k : nat) : forall (w : World) (ev : list Z),
  monotone w -> in_order w ev ->
  in_order (later w k) (ev ++ readings w k).
Proof.
  induction k as [|k IH]; intros w ev Hmono Hord.
  - unfold readings. simpl. now rewrite app_nil_r, later_0.
  - rewrite readings_S.
    change (clock w (ticks w) :: readings (later w 1) k)
      with ([clock w (ticks w)] ++ readings (later w 1) k).
    rewrite app_assoc.
    replace (later w (S k)) with (later (later w 1) k)
      by (rewrite later_later; f_equal).
    apply IH; [now apply monotone_later|].
    destruct Hord as [Hs Hall]. split.
    + now apply StronglySorted_snoc.
    + apply Forall_app. split.
      * apply (Forall_impl _ _ _ Hall). intros e He. simpl.
        pose proof (Hmono (ticks w) (ticks w + 1)%nat). lia.
      * constructor; [|constructor]. simpl. apply Hmono. lia.
Qed.

Lemma in_order_suffix (w : World) (dropped ev : list Z) :
  in_order w (dropped ++ ev) -> in_order w ev.
Proof.
  intros [Hs Hall]. split.
  - induction dropped as [|d dropped IH]; [exact Hs|].
    apply IH; simpl in *.
    + now inversion Hs.
    + now inversion Hall.
  - apply Forall_app in Hall. tauto.
Qed.

Lemma in_order_popleft (w : World) (cutoff : Z) (ev : list Z) :
  in_order w ev -> in_order w (popleft_while_before cutoff ev).
Proof.
  intros Hord.
  destruct (popleft_suffix cutoff ev) as (dropped & Heq & _).
  rewrite Heq in Hord. now apply in_order_suffix in Hord.
Qed.




(** Whatever the order of the events, a rate that is returned is not
    negative. *)
Lemma hourly_rate_nonneg (self self' : RateAverager) (w w' : World) (rate : Q) :
  0 < window self ->
  hourly_rate self w = Return ((rate, self'), w') ->
  (0 <= rate)%Q.
Proof.
  intros Hwin. rewrite hourly_rate_eq.
  replace (window self =? 0) with false by (symmetry; apply Z.eqb_neq; lia).
  set (ev := popleft_while_before _ _).
  assert (Hdiv : forall z : Z, 0 < z ->
            (0 <= inject_Z (Z.of_nat (length ev))
                  / (total_seconds z / inject_Z 3600))%Q).
  { intros z Hz. apply Qle_shift_div_l.
    - unfold Qlt, total_seconds, Qdiv, Qmult, Qinv, inject_Z. simpl.
      rewrite !Z.mul_1_r. exact Hz.
    - rewrite Qmult_0_l. unfold Qle, inject_Z. simpl. lia. }
  destruct (_ <=? 1)%nat; intros [= <- _ _]; apply py_round2_nonneg.
  - now apply Hdiv.
  - destruct (Z.ltb_spec 0 (List.last ev 0 - hd 0 ev)).
    + now apply Hdiv.
    + apply Qle_refl.
Qed.

Lemma update_from_total_returns (total_count : Z) (self : RateAverager)
  (w : World) :
  exists (self' : RateAverager) (n : nat),
    update_from_total total_count self w = Return (self', later w n)
    /\ window self' = window self.
Proof.
  destruct (_last_total self) as [last|] eqn:Hlast.
  - rewrite (update_from_total_eq total_count last self w Hlast).
    eexists _, _. split; reflexivity.
  - rewrite (update_from_total_first total_count self w Hlast).
    eexists _, 0%nat. rewrite later_0. split; reflexivity.
Qed.

Lemma hourly_rate_returns (self : RateAverager) (w : World) :
  window self <> 0 ->
  exists (rate : Q) (self' : RateAverager),
    hourly_rate self w = Return ((rate, self'), later w 1)
    /\ window self' = window self.
Proof.
  intros Hwin. rewrite hourly_rate_eq.
  replace (window self =? 0) with false by (symmetry; now apply Z.eqb_neq).
  destruct (_ <=? 1)%nat; eexists _, _; split; reflexivity.
Qed.











(** ** Dashboard *)

(** The effect of [on_data] on the attributes the health check and the
    logger read. *)
Lemma on_data_eq (d : gmap string Z) (self : Dashboard) (w : World) :
  window (rate_calc self) <> 0 ->
  exists (self' : Dashboard) (n : nat),
    on_data d self w = Return (self', later w n)
    /\ last_data_ts self' = Some (seconds_now w)
    /\ last_cycle_ts self' =
       match prev_total self with
       | None => Some (seconds_now w)
       | Some p => if derived_total d >? p then Some (seconds_now w)
                   else last_cycle_ts self
       end
    /\ prev_total self' = Some (derived_total d)
    /\ v_total (last_values self') = derived_total d
    /\ v_accepted (last_values self') = py_or (d !! "accepted"%string) 0
    /\ v_rejected (last_values self') = py_or (d !! "rejected"%string) 0
    /\ window (rate_calc self') = window (rate_calc self)
    /\ _pending self' = _pending self
    /\ db self' = db self
    /\ current_job_id self' = current_job_id self.
Proof.
  intros Hwin. unfold on_data, derived_total.
  rewrite (bind_Return _ _ _ _ _ (time_time_eq w)).
  change (prev_total (set_last_data_ts (Some (seconds_now w)) self))
    with (prev_total self).
  set (total := py_or (d !! "total"%string) _).
  set (s1 := set_prev_total _ _).
  assert (Hrc : rate_calc s1 = rate_calc self).
  { subst s1. destruct (prev_total self) as [p|]; [destruct (total >? p)|];
      reflexivity. }
  destruct (update_from_total_returns total (rate_calc s1) (later w 1))
    as (rc1 & n1 & Hupd & Hw1).
  rewrite (bind_Return _ _ _ _ _ Hupd).
  destruct (hourly_rate_returns rc1 (later (later w 1) n1))
    as (rate & rc2 & Hrate & Hw2).
  { congruence. }
  rewrite (bind_Return _ _ _ _ _ Hrate).
  rewrite (bind_Return _ _ _ _ _ (datetime_now_eq _)).
  rewrite !later_later.
  eexists _, _. split; [reflexivity|]. simpl.
  assert (Hw3 : window rc2 = window (rate_calc self)) by congruence.
  clear Hupd Hrate Hrc Hw1 Hw2. subst s1.
  destruct (prev_total self) as [p|]; [destruct (total >? p)|];
    simpl; repeat split; exact Hw3.
Qed.

Lemma Qgtb_true (x y : Q) : (y < x)%Q -> Qgtb x y = true.
Proof.
  intros Hlt. unfold Qgtb. apply negb_true_iff.
  destruct (Qle_bool x y) eqn:Hle; [|reflexivity].
  apply Qle_bool_iff in Hle. now apply Qlt_not_le in Hlt.
Qed.

Lemma check_health_returns (self : Dashboard) (w : World) :
  exists tag : health_text * bool,
    check_health self w = Return (set_health_tag tag self, later w 1).
Proof.
  unfold check_health. rewrite (bind_Return _ _ _ _ _ (time_time_eq w)).
  destruct (last_data_ts self) as [ld|];
    [destruct (Qgtb (seconds_now w - ld) (data_timeout self))|];
    cbv iota beta;
    try (destruct (last_cycle_ts self) as [lc|];
         [destruct (Qgtb (seconds_now w - lc) (cycle_timeout self))|]);
    eexists; reflexivity.
Qed.

(** C1: when the data timeout and the cycle timeout have both expired at
    the tick, the tag shows the data timeout, not the missing cycles. *)
Theorem check_health_data_timeout_first (self : Dashboard) (w : World)
  (last_data last_cycle : Q) :
  last_data_ts self = Some last_data ->
  last_cycle_ts self = Some last_cycle ->
  (data_timeout self < seconds_now w - last_data)%Q ->
  (cycle_timeout self < seconds_now w - last_cycle)%Q ->
  check_health self w
  = Return (set_health_tag (TextDataTimeout (data_timeout self), false) self,
            later w 1)
  /\ forall thr : Q,
       check_health self w
       <> Return (set_health_tag (TextNoCycles thr, false) self, later w 1).
Proof.
  intros Hdata Hcycle Hd Hc.
  assert (Heq : check_health self w
                = Return (set_health_tag
                            (TextDataTimeout (data_timeout self), false) self,
                          later w 1)).
  { unfold check_health. rewrite (bind_Return _ _ _ _ _ (time_time_eq w)).
    rewrite Hdata, (Qgtb_true _ _ Hd). reflexivity. }
  split; [exact Heq|].
  intros thr Hno. rewrite Heq in Hno.
  inversion Hno.
Qed.

Lemma check_health_data_timeout_first_witness :
  check_health stalled at_200s
  = Return (set_health_tag (TextDataTimeout (data_timeout stalled), false)
                           stalled,
            later at_200s 1)
  /\ forall thr : Q,
       check_health stalled at_200s
       <> Return (set_health_tag (TextNoCycles thr, false) stalled,
                  later at_200s 1).
Proof.
  apply (check_health_data_timeout_first stalled at_200s 190%Q 100%Q).
  - reflexivity.
  - reflexivity.
  - vm_compute. reflexivity.
  - vm_compute. reflexivity.
Defined.

(** C9: without an active job [append_sample] returns at once: no error,
    the object (store and pending counter included) and the clock are as
    before. *)
Theorem append_sample_no_job (accepted rejected total : Z) (rate : Q)
  (self : Dashboard) (w : World) :
  current_job_id self = None ->
  append_sample accepted rejected total rate self w = Return (self, w).
Proof. intros Hjob. unfold append_sample. now rewrite Hjob. Qed.

Lemma append_sample_no_job_witness :
  append_sample 3 1 4 0 stalled at_200s = Return (stalled, at_200s).
Proof. apply (append_sample_no_job 3 1 4 0 stalled at_200s). reflexivity. Defined.

(** C7, as stated, fails: a blank name raises nothing.  [new_job] returns
    normally, and its caller cannot tell the call from a successful one. *)
Lemma new_job_blank_raises_nothing :
  strip "  "%string = ""%string
  /\ new_job "  "%string true (Dashboard_init empty_store) ticking
     = Return (Dashboard_init empty_store, ticking)
  /\ forall e : py_exn,
       new_job "  "%string true (Dashboard_init empty_store) ticking
       <> Raise e.
Proof.
  split; [reflexivity|]. split; [reflexivity|]. intros e. discriminate.
Qed.

(** C7 (amended): for a name that is empty after trimming, [new_job]
    returns at once without raising; no row is inserted and the object,
    the store and the clock are as before. *)
Theorem new_job_blank_is_noop (name : string) (ok : bool) (self : Dashboard)
  (w : World) :
  strip name = ""%string ->
  new_job name ok self w = Return (self, w).
Proof.
  intros Hblank. unfold new_job. rewrite Hblank. simpl.
  now rewrite orb_true_r.
Qed.

Lemma new_job_blank_is_noop_witness :
  new_job (String "009" " "%string) true stalled at_200s
  = Return (stalled, at_200s).
Proof.
  apply (new_job_blank_is_noop (String "009" " "%string) true stalled at_200s).
  reflexivity.
Defined.

Lemma well_formed_core (s s' : Dashboard) :
  core s' = core s -> well_formed s -> well_formed s'.
Proof.
  unfold core, well_formed. intros [= Hrc Hd Hc Hp Hq].
  now rewrite Hrc, Hd, Hc, Hp, Hq.
Qed.

Lemma load_job_data_core (jid : Z) (s : Dashboard) :
  core (load_job_data jid s) = core s.
Proof. reflexivity. Qed.

Lemma load_jobs_core (s : Dashboard) : core (load_jobs s) = core s.
Proof. unfold load_jobs. destruct (select_jobs (db s)); reflexivity. Qed.

Lemma select_job_core (idx : Z) (s : Dashboard) :
  core (select_job idx s) = core s.
Proof.
  unfold select_job.
  destruct (if idx <? 0 then None else nth_error (job_combo s) (Z.to_nat idx));
    reflexivity.
Qed.

Lemma Dashboard_init_well_formed (stored : tables) :
  well_formed (Dashboard_init stored).
Proof.
  unfold Dashboard_init. eapply well_formed_core; [apply load_jobs_core|].
  repeat split.
Qed.

Lemma new_job_returns (name : string) (ok : bool) (s : Dashboard) (w : World) :
  exists (s' : Dashboard) (n : nat),
    new_job name ok s w = Return (s', later w n) /\ core s' = core s.
Proof.
  unfold new_job. destruct (negb ok || negb (str_truthy (strip name))).
  - exists s, 0%nat. now rewrite later_0.
  - rewrite (bind_Return _ _ _ _ _ (datetime_now_eq w)).
    eexists _, 1%nat. split; [reflexivity|]. now rewrite load_jobs_core.
Qed.

(** One [append_sample] with an active job: a row with the next clock
    reading is inserted; the tenth pending insert commits. *)
Lemma append_sample_eq (accepted rejected total : Z) (rate : Q) (jid : Z)
  (s : Dashboard) (w : World) :
  current_job_id s = Some jid -> jid <> 0 ->
  let c := insert_sample jid (clock w (ticks w)) accepted rejected total rate
                         (db s) in
  let p := match _pending s with None => 0 | Some p => p end + 1 in
  append_sample accepted rejected total rate s w =
  Return (if p >=? 10
          then set_pending (Some 0) (set_db (commit c) (set_db c s))
          else set_pending (Some p) (set_db c s),
          later w 1).
Proof.
  intros Hjob Hjid c p. unfold append_sample. rewrite Hjob.
  replace (jid =? 0) with false by (symmetry; now apply Z.eqb_neq).
  rewrite (bind_Return _ _ _ _ _ (datetime_now_eq w)).
  cbv zeta. fold c. change (_pending (set_db c s)) with (_pending s). fold p.
  destruct (p >=? 10); reflexivity.
Qed.

Lemma append_sample_returns (accepted rejected total : Z) (rate : Q)
  (s : Dashboard) (w : World) :
  well_formed s ->
  exists (s' : Dashboard) (n : nat),
    append_sample accepted rejected total rate s w = Return (s', later w n)
    /\ well_formed s'.
Proof.
  intros Hwf. destruct (current_job_id s) as [jid|] eqn:Hjob.
  - destruct (Z.eq_dec jid 0) as [->|Hjid].
    + exists s, 0%nat. unfold append_sample. rewrite Hjob, later_0.
      now split.
    + rewrite (append_sample_eq _ _ _ _ jid s w Hjob Hjid).
      eexists _, 1%nat. split; [reflexivity|].
      destruct Hwf as (Hw & Hd & Hp & Hq).
      set (p := match _pending s with None => 0 | Some p => p end + 1).
      assert (Hp1 : 1 <= p <= 10) by (subst p; destruct (_pending s); lia).
      rewrite Z.geb_leb.
      destruct (Z.leb_spec 10 p); unfold well_formed; simpl;
        repeat split; auto; lia.
  - exists s, 0%nat. unfold append_sample. rewrite Hjob, later_0. now split.
Qed.

Lemma deliver_well_formed (c : call) (s : Dashboard) (w : World) :
  well_formed s ->
  exists (s' : Dashboard) (n : nat),
    deliver c s w = Return (s', later w n) /\ well_formed s'.
Proof.
  intros Hwf. destruct c as [connected|d| | |name ok|idx|dt ct]; simpl.
  - unfold on_state. destruct connected.
    + rewrite (bind_Return _ _ _ _ _ (time_time_eq w)).
      eexists _, 1%nat. split; [reflexivity|].
      destruct Hwf as (Hw & Hd & Hp & Hq). unfold well_formed. simpl.
      repeat split; auto. discriminate.
    + exists s, 0%nat. rewrite later_0. now split.
  - destruct Hwf as (Hw & Hd & Hp & Hq).
    destruct (on_data_eq d s w) as (s' & n & Hrun & Hd' & Hc' & Hp' & H).
    { rewrite Hw. discriminate. }
    destruct H as (_ & _ & _ & Hw' & Hq' & _).
    exists s', n. split; [exact Hrun|]. unfold well_formed.
    rewrite Hw', Hd', Hp', Hq'. repeat split; auto; discriminate.
  - destruct (check_health_returns s w) as (tag & Hrun).
    eexists _, 1%nat. split; [exact Hrun|].
    now apply (well_formed_core s).
  - apply append_sample_returns, Hwf.
  - destruct (new_job_returns name ok s w) as (s' & n & Hrun & Hcore).
    exists s', n. split; [exact Hrun|]. now apply (well_formed_core s).
  - eexists _, 0%nat. rewrite later_0. split; [reflexivity|].
    apply (well_formed_core s); [apply select_job_core | exact Hwf].
  - eexists _, 0%nat. rewrite later_0. split; [reflexivity|].
    now apply (well_formed_core s).
Qed.

(** Every run of the event loop from the initial window returns, and the
    window object stays well formed. *)
Lemma run_well_formed (cs : list call) : forall (s : Dashboard) (w : World),
  well_formed s ->
  exists (s' : Dashboard) (n : nat),
    run cs s w = Return (s', later w n) /\ well_formed s'.
Proof.
  induction cs as [|c cs IH]; intros s w Hwf; simpl.
  - exists s, 0%nat. rewrite later_0. now split.
  - destruct (deliver_well_formed c s w Hwf) as (s1 & n1 & Hrun1 & Hwf1).
    rewrite (bind_Return _ _ _ _ _ Hrun1).
    destruct (IH s1 (later w n1) Hwf1) as (s2 & n2 & Hrun2 & Hwf2).
    exists s2, (n1 + n2)%nat. rewrite <- later_later. now split.
Qed.

(** C8: at a tick before any data and any connection (the window was
    built, the event loop delivered whatever it delivered, and
    [last_data_ts] is still unset), the tag shows OK, whatever the clock
    reads. *)
Theorem check_health_before_data (stored : tables) (cs : list call)
  (w w1 : World) (s : Dashboard) :
  run cs (Dashboard_init stored) w = Return (s, w1) ->
  last_data_ts s = None ->
  check_health s w1 = Return (set_health_tag (TextOK, true) s, later w1 1).
Proof.
  intros Hrun Hnone.
  destruct (run_well_formed cs (Dashboard_init stored) w
              (Dashboard_init_well_formed stored))
    as (s' & n & Hrun' & Hwf).
  rewrite Hrun in Hrun'. injection Hrun' as <- _.
  destruct Hwf as (_ & Hd & _).
  unfold check_health. rewrite (bind_Return _ _ _ _ _ (time_time_eq w1)).
  rewrite Hnone, (Hd Hnone). reflexivity.
Qed.

Lemma check_health_before_data_witness :
  check_health
    (set_health_tag (TextOK, true)
       (set_timeouts (1 # 2) 1 (Dashboard_init empty_store)))
    (later hourly 1)
  = Return (set_health_tag (TextOK, true)
              (set_health_tag (TextOK, true)
                 (set_timeouts (1 # 2) 1 (Dashboard_init empty_store))),
            later (later hourly 1) 1).
Proof.
  apply (check_health_before_data empty_store
           [SetTimeouts (1 # 2) 1; OnState false; CheckHealth] hourly).
  - reflexivity.
  - reflexivity.
Defined.

Lemma append_sample_prev_total (accepted rejected total : Z) (rate : Q)
  (s s' : Dashboard) (w w' : World) :
  append_sample accepted rejected total rate s w = Return (s', w') ->
  prev_total s' = prev_total s.
Proof.
  unfold append_sample.
  destruct (current_job_id s) as [jid|]; [|now intros [= <- _]].
  destruct (jid =? 0); [now intros [= <- _]|].
  rewrite (bind_Return _ _ _ _ _ (datetime_now_eq w)). cbv zeta.
  destruct (_ >=? 10); now intros [= <- _].
Qed.

Lemma deliver_prev_total (c : call) (s s' : Dashboard) (w w' : World) :
  no_data [c] = true ->
  deliver c s w = Return (s', w') ->
  prev_total s' = prev_total s.
Proof.
  destruct c as [connected|d| | |name ok|idx|dt ct]; simpl; intros Hno.
  - unfold on_state. destruct connected.
    + rewrite (bind_Return _ _ _ _ _ (time_time_eq w)). now intros [= <- _].
    + now intros [= <- _].
  - discriminate Hno.
  - destruct (check_health_returns s w) as (tag & ->). now intros [= <- _].
  - apply append_sample_prev_total.
  - destruct (new_job_returns name ok s w) as (s1 & n & -> & Hcore).
    intros [= <- _]. now injection Hcore.
  - intros [= <- _]. pose proof (select_job_core idx s) as Hcore.
    now injection Hcore.
  - now intros [= <- _].
Qed.

Lemma run_prev_total (cs : list call) :
  forall (s s' : Dashboard) (w w' : World),
    no_data cs = true ->
    run cs s w = Return (s', w') ->
    prev_total s' = prev_total s.
Proof.
  induction cs as [|c cs IH]; intros s s' w w' Hno; simpl.
  - now intros [= <- _].
  - simpl in Hno. apply andb_true_iff in Hno as [Hc Hcs].
    unfold bind. destruct (deliver c s w) as [[s1 w1]|e] eqn:Hd; [|discriminate].
    intros Hrun. rewrite (IH _ _ _ _ Hcs Hrun).
    apply (deliver_prev_total c s s1 w w1); [|exact Hd].
    simpl. now rewrite Hc.
Qed.

(** C10: the first sample the window ever receives starts the cycle
    clock: whatever the dict holds, [on_data] returns with
    [last_cycle_ts] (and [last_data_ts]) set to the time it read, also
    when the derived total is 0 and nothing was counted. *)
Theorem first_sample_starts_cycle_clock (stored : tables) (cs : list call)
  (d : gmap string Z) (w w1 : World) (s : Dashboard) :
  no_data cs = true ->
  run cs (Dashboard_init stored) w = Return (s, w1) ->
  exists (s' : Dashboard) (n : nat),
    on_data d s w1 = Return (s', later w1 n)
    /\ last_cycle_ts s' = Some (seconds_now w1)
    /\ last_data_ts s' = Some (seconds_now w1)
    /\ prev_total s' = Some (derived_total d).
Proof.
  intros Hno Hrun.
  destruct (run_well_formed cs (Dashboard_init stored) w
              (Dashboard_init_well_formed stored))
    as (s1 & n1 & Hrun' & Hwf).
  rewrite Hrun in Hrun'. injection Hrun' as <- _.
  assert (Hprev : prev_total s = None).
  { rewrite (run_prev_total cs _ _ _ _ Hno Hrun).
    unfold Dashboard_init.
    pose proof (load_jobs_core
                  (mkDashboard (init_db stored) [] None None
                     (RateAverager_init 1) (mkValues 0 0 0 0)
                     None None None 5 60 (TextOK, true) [] [])) as Hcore.
    now injection Hcore. }
  destruct Hwf as (Hw & _).
  destruct (on_data_eq d s w1) as (s' & n & Hdata & Hd' & Hc' & Hp' & _).
  { rewrite Hw. discriminate. }
  exists s', n. rewrite Hprev in Hc'. now repeat split.
Qed.

Lemma first_sample_starts_cycle_clock_witness :
  exists (s' : Dashboard) (n : nat),
    on_data ∅ (set_health_tag (TextOK, true) (Dashboard_init empty_store))
            (later hourly 1)
    = Return (s', later (later hourly 1) n)
    /\ last_cycle_ts s' = Some (seconds_now (later hourly 1))
    /\ last_data_ts s' = Some (seconds_now (later hourly 1))
    /\ prev_total s' = Some (derived_total ∅).
Proof.
  apply (first_sample_starts_cycle_clock empty_store
           [CheckHealth; OnState false] ∅ hourly).
  - reflexivity.
  - reflexivity.
Defined.

(** C5, as stated, fails: the device reports the total 0 directly, and
    [on_data] uses accepted + rejected = 4 instead. *)
Lemma reported_total_zero_is_replaced :
  frame_zero_total !! "total"%string = Some 0
  /\ match on_data frame_zero_total (Dashboard_init empty_store) ticking with
     | Return (s', _) =>
         v_total (last_values s') = 4 /\ prev_total s' = Some 4
     | Raise _ => False
     end.
Proof. vm_compute. repeat split. Qed.

(** C5 (amended): [on_data] returns, and the total it uses (for the cycle
    detection, the rate and the logged values) is the reported total
    when that is present and not 0; when it is absent or 0 it is
    accepted + rejected, each of which is the reported count, or 0 when
    absent. *)
Theorem on_data_total_derivation (d : gmap string Z) (self : Dashboard)
  (w : World) :
  window (rate_calc self) <> 0 ->
  exists (self' : Dashboard) (n : nat) (total : Z),
    on_data d self w = Return (self', later w n)
    /\ prev_total self' = Some total
    /\ v_total (last_values self') = total
    /\ (forall t : Z, d !! "total"%string = Some t -> t <> 0 -> total = t)
    /\ (d !! "total"%string = None \/ d !! "total"%string = Some 0 ->
        total = v_accepted (last_values self')
                + v_rejected (last_values self'))
    /\ v_accepted (last_values self')
       = match d !! "accepted"%string with Some a => a | None => 0 end
    /\ v_rejected (last_values self')
       = match d !! "rejected"%string with Some r => r | None => 0 end.
Proof.
  intros Hwin.
  destruct (on_data_eq d self w Hwin)
    as (s' & n & Hrun & _ & _ & Hp & Ht & Ha & Hr & _).
  exists s', n, (derived_total d). rewrite Ha, Hr.
  split; [exact Hrun|]. split; [exact Hp|]. split; [exact Ht|].
  unfold derived_total, py_or. repeat split.
  - intros t -> Ht0. now apply Z.eqb_neq in Ht0 as ->.
  - intros [-> | ->]; reflexivity.
  - destruct (d !! "accepted"%string) as [a|]; [|reflexivity].
    destruct (Z.eqb_spec a 0); congruence.
  - destruct (d !! "rejected"%string) as [r|]; [|reflexivity].
    destruct (Z.eqb_spec r 0); congruence.
Qed.

Lemma on_data_total_derivation_witness :
  exists (self' : Dashboard) (n : nat) (total : Z),
    on_data frame_zero_total stalled at_200s = Return (self', later at_200s n)
    /\ prev_total self' = Some total
    /\ v_total (last_values self') = total
    /\ (forall t : Z,
          frame_zero_total !! "total"%string = Some t -> t <> 0 -> total = t)
    /\ (frame_zero_total !! "total"%string = None
        \/ frame_zero_total !! "total"%string = Some 0 ->
        total = v_accepted (last_values self')
                + v_rejected (last_values self'))
    /\ v_accepted (last_values self')
       = match frame_zero_total !! "accepted"%string with
         | Some a => a
         | None => 0
         end
    /\ v_rejected (last_values self')
       = match frame_zero_total !! "rejected"%string with
         | Some r => r
         | None => 0
         end.
Proof.
  apply (on_data_total_derivation frame_zero_total stalled at_200s).
  vm_compute. discriminate.
Defined.

Lemma append_samples_commits (xs : list Values) :
  forall (self : Dashboard) (w : World) (jid : Z),
    current_job_id self = Some jid -> jid <> 0 ->
    0 <= pending_count self < 10 ->
    exists (self' : Dashboard) (rows : list sample_row),
      append_samples xs self w = Return (self', later w (length xs))
      /\ map row_values rows = xs
      /\ map s_ts rows = readings w (length xs)
      /\ Forall (fun r => s_job_id r = jid) rows
      /\ working (db self')
         = mkTables (jobs (working (db self)))
                    (samples (working (db self)) ++ rows)
      /\ let total := pending_count self + Z.of_nat (length xs) in
         pending_count self' = total mod 10
         /\ (xs <> [] -> _pending self' = Some (total mod 10))
         /\ (total < 10 -> committed (db self') = committed (db self))
         /\ (10 <= total ->
             committed (db self')
             = mkTables (jobs (working (db self)))
                 (samples (working (db self))
                  ++ firstn (length xs - Z.to_nat (total mod 10)) rows)).
Proof.
  induction xs as [|v xs IH]; intros self w jid Hjob Hjid Hpend.
  - exists self, []. simpl. rewrite later_0, app_nil_r, Z.add_0_r.
    rewrite Z.mod_small by lia.
    destruct (working (db self)) as [js ss] eqn:Hwk.
    repeat split; try reflexivity; try constructor; try lia.
    now intros [].
  - simpl append_samples.
    pose proof (append_sample_eq (v_accepted v) (v_rejected v) (v_total v)
                  (v_rate v) jid self w Hjob Hjid) as Hstep.
    cbv zeta in Hstep. fold (pending_count self) in Hstep.
    set (c := insert_sample jid (clock w (ticks w)) (v_accepted v)
                (v_rejected v) (v_total v) (v_rate v) (db self)) in *.
    set (row := mkSample (next_id (map s_id (samples (working (db self)))))
                  jid (clock w (ticks w)) (v_accepted v) (v_rejected v)
                  (v_total v) (v_rate v)).
    assert (Hwk : working c
                  = mkTables (jobs (working (db self)))
                             (samples (working (db self)) ++ [row]))
      by reflexivity.
    assert (Hcm : committed c = committed (db self)) by reflexivity.
    rewrite (bind_Return _ _ _ _ _ Hstep). clear Hstep.
    rewrite Z.geb_leb.
    destruct (Z.leb_spec 10 (pending_count self + 1)) as [Hten|Hless].
    + set (s1 := set_pending (Some 0) (set_db (commit c) (set_db c self))).
      destruct (IH s1 (later w 1) jid) as (s' & rows & Hrun & Hv & Hts & Hj
                                           & Hw' & Hp' & Hsome & Hlt & Hge).
      { exact Hjob. } { exact Hjid. }
      { change (pending_count s1) with 0. lia. }
      change (pending_count s1) with 0 in Hp', Hsome, Hlt, Hge.
      change (working (db s1)) with (working c) in Hw', Hge.
      change (committed (db s1)) with (working c) in Hlt.
      rewrite Hwk in Hw', Hge, Hlt. simpl in Hw', Hge, Hlt.
      rewrite Z.add_0_l in Hp', Hsome, Hlt, Hge.
      exists s', (row :: rows). rewrite later_later in Hrun.
      assert (Hmod : (pending_count self + Z.of_nat (length (v :: xs))) mod 10
                     = Z.of_nat (length xs) mod 10).
      { simpl length.
        replace (pending_count self + Z.of_nat (S (length xs)))
          with (Z.of_nat (length xs) + 1 * 10) by lia.
        apply Z.mod_add. lia. }
      split; [exact Hrun|]. split; [simpl; now rewrite Hv; destruct v|].
      split; [simpl length; rewrite readings_S; simpl map; now rewrite Hts|].
      split; [now constructor|].
      split; [now rewrite Hw', <- app_assoc|].
      cbv zeta. rewrite Hmod.
      split; [exact Hp'|]. split.
      { intros _. destruct xs as [|v' xs'].
        - simpl in Hrun. injection Hrun as <-. reflexivity.
        - apply Hsome. discriminate. }
      split; [simpl length; lia|]. intros _.
      destruct (Z.lt_ge_cases (Z.of_nat (length xs)) 10) as [Hsmall|Hbig].
      * rewrite (Hlt Hsmall), Z.mod_small by lia.
        rewrite Nat2Z.id. simpl length.
        replace (S (length xs) - length xs)%nat with 1%nat by lia.
        reflexivity.
      * rewrite (Hge Hbig), <- app_assoc. simpl length.
        assert (Hm : (Z.to_nat (Z.of_nat (length xs) mod 10) <= length xs)%nat).
        { pose proof (Z.mod_pos_bound (Z.of_nat (length xs)) 10). lia. }
        replace (S (length xs) - Z.to_nat (Z.of_nat (length xs) mod 10))%nat
          with (S (length xs - Z.to_nat (Z.of_nat (length xs) mod 10)))
          by lia.
        reflexivity.
    + set (s1 := set_pending (Some (pending_count self + 1)) (set_db c self)).
      destruct (IH s1 (later w 1) jid) as (s' & rows & Hrun & Hv & Hts & Hj
                                           & Hw' & Hp' & Hsome & Hlt & Hge).
      { exact Hjob. } { exact Hjid. }
      { change (pending_count s1) with (pending_count self + 1). lia. }
      change (pending_count s1) with (pending_count self + 1)
        in Hp', Hsome, Hlt, Hge.
      change (working (db s1)) with (working c) in Hw', Hge.
      change (committed (db s1)) with (committed (db self)) in Hlt.
      rewrite Hwk in Hw', Hge. simpl in Hw', Hge.
      exists s', (row :: rows). rewrite later_later in Hrun.
      assert (Htot : pending_count self + Z.of_nat (length (v :: xs))
                     = pending_count self + 1 + Z.of_nat (length xs))
        by (simpl length; lia).
      split; [exact Hrun|]. split; [simpl; now rewrite Hv; destruct v|].
      split; [simpl length; rewrite readings_S; simpl map; now rewrite Hts|].
      split; [now constructor|].
      split; [now rewrite Hw', <- app_assoc|].
      cbv zeta. rewrite Htot.
      split; [exact Hp'|]. split.
      { intros _. destruct xs as [|v' xs'].
        - simpl in Hrun. injection Hrun as <-. simpl.
          rewrite Z.add_0_r, Z.mod_small by lia. reflexivity.
        - apply Hsome. discriminate. }
      split; [exact Hlt|]. intros Hbig.
      rewrite (Hge Hbig), <- app_assoc. simpl length.
      set (m := Z.to_nat ((pending_count self + 1 + Z.of_nat (length xs))
                          mod 10)).
      assert (Hm : (m <= length xs)%nat).
      { subst m.
        pose proof (Z.mod_pos_bound
                      (pending_count self + 1 + Z.of_nat (length xs)) 10).
        pose proof (Z.div_mod
                      (pending_count self + 1 + Z.of_nat (length xs)) 10).
        assert (1 <= (pending_count self + 1 + Z.of_nat (length xs)) / 10)
          by (apply Z.div_le_lower_bound; lia).
        lia. }
      replace (S (length xs) - m)%nat with (S (length xs - m)) by lia.
      reflexivity.
Qed.

(** C6: with an active job and a pending counter below 10, any sequence of
    [append_sample] calls returns and inserts one row per call; the
    counter ends at (pending + calls) mod 10; a commit is issued each
    time the counter reaches 10, so that the committed samples are the
    inserted ones without the last (pending + calls) mod 10; in
    particular, after exactly 10 calls from a counter that is unset or 0
    everything inserted is committed and the counter is 0. *)
Theorem append_sample_commit_every_10 (xs : list Values) (self : Dashboard)
  (w : World) (jid : Z) :
  current_job_id self = Some jid ->
  jid <> 0 ->
  0 <= pending_count self < 10 ->
  exists (self' : Dashboard) (rows : list sample_row),
    append_samples xs self w = Return (self', later w (length xs))
    /\ map row_values rows = xs
    /\ Forall (fun r => s_job_id r = jid) rows
    /\ samples (working (db self')) = samples (working (db self)) ++ rows
    /\ let total := pending_count self + Z.of_nat (length xs) in
       pending_count self' = total mod 10
       /\ (total < 10 -> committed (db self') = committed (db self))
       /\ (10 <= total ->
           samples (committed (db self'))
           = samples (working (db self))
             ++ firstn (length xs - Z.to_nat (total mod 10)) rows)
       /\ (pending_count self = 0 -> length xs = 10%nat ->
           committed (db self') = working (db self')
           /\ _pending self' = Some 0).
Proof.
  intros Hjob Hjid Hpend.
  destruct (append_samples_commits xs self w jid Hjob Hjid Hpend)
    as (s' & rows & Hrun & Hv & _ & Hj & Hw' & Hp' & Hsome & Hlt & Hge).
  exists s', rows.
  split; [exact Hrun|]. split; [exact Hv|]. split; [exact Hj|].
  split; [now rewrite Hw'|]. cbv zeta.
  split; [exact Hp'|]. split; [exact Hlt|].
  split; [intros Hbig; now rewrite (Hge Hbig)|].
  intros Hzero Hlen. rewrite Hzero, Hlen in Hge, Hsome. simpl in Hge, Hsome.
  split.
  - rewrite Hge, Hw' by lia. do 2 f_equal. apply firstn_all2.
    rewrite <- Hv, length_map in Hlen. lia.
  - apply Hsome. intros ->. discriminate Hlen.
Qed.

Lemma append_sample_commit_every_10_witness :
  exists (self' : Dashboard) (rows : list sample_row),
    append_samples ten_samples logging ticking
    = Return (self', later ticking (length ten_samples))
    /\ map row_values rows = ten_samples
    /\ Forall (fun r => s_job_id r = 1) rows
    /\ samples (working (db self')) = samples (working (db logging)) ++ rows
    /\ let total := pending_count logging + Z.of_nat (length ten_samples) in
       pending_count self' = total mod 10
       /\ (total < 10 -> committed (db self') = committed (db logging))
       /\ (10 <= total ->
           samples (committed (db self'))
           = samples (working (db logging))
             ++ firstn (length ten_samples - Z.to_nat (total mod 10)) rows)
       /\ (pending_count logging = 0 -> length ten_samples = 10%nat ->
           committed (db self') = working (db self')
           /\ _pending self' = Some 0).
Proof.
  apply (append_sample_commit_every_10 ten_samples logging ticking 1).
  - reflexivity.
  - lia.
  - change (pending_count logging) with 0. lia.
Defined.

(** * Further properties *)

(** ** RateAverager *)

Lemma ra_deliver_keeps_order (c : ra_call) (r r' : RateAverager)
  (w w' : World) :
  monotone w -> in_order w (events r) ->
  ra_deliver c r w = Return (r', w') ->
  in_order w' (events r') /\ monotone w'.
Proof.
  intros Hmono Hord. destruct c as [total_count|]; simpl.
  - destruct (_last_total r) as [last|] eqn:Hlast.
    + rewrite (update_from_total_eq total_count last r w Hlast).
      set (k := if total_count >? last then range_len (total_count - last)
                else 0%nat).
      intros [= <- <-]. simpl. split; [|now apply monotone_later].
      apply in_order_popleft.
      replace (later w (S k)) with (later (later w k) 1)
        by (rewrite later_later; f_equal; lia).
      apply in_order_later; [now apply monotone_later|].
      now apply in_order_readings.
    + rewrite (update_from_total_first total_count r w Hlast).
      intros [= <- <-]. now split.
  - unfold bind. rewrite hourly_rate_eq.
    destruct (_ <=? 1)%nat; [destruct (window r =? 0); [discriminate|]|];
      intros [= <- <-]; simpl; (split; [|now apply monotone_later]);
      apply in_order_popleft, in_order_later; assumption.
Qed.

(** Under a clock that is never set back, whatever calls a fresh
    [RateAverager] has served, its events are in non-decreasing order and
    none of them is ahead of the clock. *)
Theorem events_stay_in_order (win : Z) (cs : list ra_call) (w w' : World)
  (r : RateAverager) :
  monotone w ->
  ra_run cs (mkRateAverager [] win None) w = Return (r, w') ->
  StronglySorted Z.le (events r)
  /\ Forall (fun e => e <= clock w' (ticks w')) (events r).
Proof.
  intros Hmono.
  assert (Hord : in_order w (events (mkRateAverager [] win None)))
    by (split; constructor).
  revert Hmono Hord. generalize (mkRateAverager [] win None) as r0.
  revert w. induction cs as [|c cs IH]; intros w r0 Hmono Hord; simpl.
  - now intros [= <- <-].
  - unfold bind. destruct (ra_deliver c r0 w) as [[r1 w1]|e] eqn:Hd;
      [|discriminate].
    destruct (ra_deliver_keeps_order c r0 r1 w w1 Hmono Hord Hd)
      as [Hord1 Hmono1].
    now apply IH.
Qed.

Lemma events_stay_in_order_witness :
  StronglySorted Z.le [0; 1; 5; 6; 7]
  /\ Forall (fun e => e <= clock (later ticking 9) (ticks (later ticking 9)))
            [0; 1; 5; 6; 7].
Proof.
  apply (events_stay_in_order 3600000000
           [Update 0; Update 2; Rate; Update 1; Update 4] ticking
           (later ticking 9)
           (mkRateAverager [0; 1; 5; 6; 7] 3600000000 (Some 4))).
  - intros i j Hij. simpl. lia.
  - reflexivity.
Defined.

Lemma popleft_sorted_recent (cutoff : Z) (ev : list Z) :
  StronglySorted Z.le ev ->
  Forall (fun e => cutoff <= e) (popleft_while_before cutoff ev).
Proof.
  induction 1 as [|e ev Hs IH He]; simpl; [constructor|].
  destruct (Z.ltb_spec e cutoff) as [Hlt|Hge]; [exact IH|].
  constructor; [exact Hge|].
  apply (Forall_impl _ _ _ He). intros x Hx. lia.
Qed.

(** [hourly_rate] computes over the last window only: when the events are
    in order, every event it retains lies between the time of the query
    minus the window and the time of the query. *)
Theorem hourly_rate_retains_window (self self' : RateAverager) (w w' : World)
  (rate : Q) :
  in_order w (events self) ->
  hourly_rate self w = Return ((rate, self'), w') ->
  Forall (fun e => clock w (ticks w) - window self <= e <= clock w (ticks w))
         (events self').
Proof.
  intros [Hs Hall]. rewrite hourly_rate_eq.
  set (ev := popleft_while_before _ _).
  assert (Hev : Forall (fun e => clock w (ticks w) - window self <= e
                                 <= clock w (ticks w)) ev).
  { apply Forall_and. split.
    - now apply popleft_sorted_recent.
    - destruct (popleft_suffix (clock w (ticks w) - window self) (events self))
        as (dropped & Heq & _).
      rewrite Heq in Hall. apply Forall_app in Hall. tauto. }
  destruct (_ <=? 1)%nat; [destruct (window self =? 0); [discriminate|]|];
    now intros [= _ <- _].
Qed.

Lemma hourly_rate_retains_window_witness :
  Forall (fun e => clock (later ticking 9) (ticks (later ticking 9)) - 5 <= e
                   <= clock (later ticking 9) (ticks (later ticking 9)))
         [4; 5].
Proof.
  apply (hourly_rate_retains_window
           (mkRateAverager [0; 1; 3; 4; 5] 5 (Some 4))
           (mkRateAverager [4; 5] 5 (Some 4))
           (later ticking 9) (later ticking 10) (720000000000 # 100)).
  - split; [repeat constructor; lia | repeat constructor; simpl; lia].
  - reflexivity.
Defined.

(** After an idle window the rate is 0: when every event is older than
    the window at the time of the query, [hourly_rate] empties the deque
    and returns 0 (given a window that is not 0). *)
Theorem hourly_rate_idle (self : RateAverager) (w : World) :
  window self <> 0 ->
  Forall (fun e => e < clock w (ticks w) - window self) (events self) ->
  exists rate : Q,
    hourly_rate self w
    = Return ((rate, mkRateAverager [] (window self) (_last_total self)),
              later w 1)
    /\ (rate == 0)%Q.
Proof.
  intros Hwin Hold. rewrite hourly_rate_eq.
  assert (Hev : popleft_while_before (clock w (ticks w) - window self)
                                     (events self) = []).
  { induction Hold as [|e ev He _ IH]; simpl; [reflexivity|].
    destruct (Z.ltb_spec e (clock w (ticks w) - window self)); [exact IH|lia]. }
  rewrite Hev. simpl.
  replace (window self =? 0) with false by (symmetry; now apply Z.eqb_neq).
  eexists. split; [reflexivity|].
  unfold py_round2, round_half_even, Qdiv. rewrite !Qmult_0_l. reflexivity.
Qed.

Lemma hourly_rate_idle_witness :
  exists rate : Q,
    hourly_rate (mkRateAverager [0; 1800000000] 3600000000 (Some 2))
                (later hourly 2)
    = Return ((rate, mkRateAverager [] 3600000000 (Some 2)),
              later (later hourly 2) 1)
    /\ (rate == 0)%Q.
Proof.
  apply (hourly_rate_idle (mkRateAverager [0; 1800000000] 3600000000 (Some 2))
                          (later hourly 2)).
  - simpl. lia.
  - repeat constructor; simpl; lia.
Defined.

Lemma increases_nonneg (totals : list Z) : forall last : Z,
  0 <= increases last totals.
Proof.
  induction totals as [|t totals IH]; intros last; simpl; [lia|].
  specialize (IH t). lia.
Qed.

Lemma popleft_keeps_all (cutoff : Z) (ev : list Z) :
  Forall (fun e => cutoff <= e) ev -> popleft_while_before cutoff ev = ev.
Proof.
  intros [|e ev' He _]; simpl; [reflexivity|].
  destruct (Z.ltb_spec e cutoff); [lia | reflexivity].
Qed.

Lemma updates_count (totals : list Z) :
  forall (r : RateAverager) (w : World) (last : Z),
    (forall i j : nat, clock w j - window r <= clock w i) ->
    Forall (fun e => exists i : nat, e = clock w i) (events r) ->
    _last_total r = Some last ->
    exists (r' : RateAverager) (n : nat),
      ra_run (map Update totals) r w = Return (r', later w n)
      /\ Z.of_nat (length (events r'))
         = Z.of_nat (length (events r)) + increases last totals
      /\ _last_total r' = Some (List.last totals last).
Proof.
  induction totals as [|t totals IH]; intros r w last Hspan Hread Hlast.
  - exists r, 0%nat. simpl. rewrite later_0. repeat split; [lia | exact Hlast].
  - simpl ra_run. simpl ra_deliver.
    pose proof (update_from_total_eq t last r w Hlast) as Hupd.
    cbv zeta in Hupd.
    set (k := if t >? last then range_len (t - last) else 0%nat) in Hupd.
    assert (Hk : Z.of_nat k = Z.max 0 (t - last)).
    { subst k. unfold range_len. destruct (Z.gtb_spec t last); lia. }
    assert (Hall : Forall (fun e => exists i : nat, e = clock w i)
                          (events r ++ readings w k)).
    { apply Forall_app. split; [exact Hread|].
      unfold readings. apply Forall_map, Forall_forall. intros i _. eauto. }
    rewrite popleft_keeps_all in Hupd.
    2:{ apply (Forall_impl _ _ _ Hall). intros e [i ->]. apply Hspan. }
    rewrite (bind_Return _ _ _ _ _ Hupd).
    destruct (IH (mkRateAverager (events r ++ readings w k) (window r) (Some t))
                 (later w (S k)) t)
      as (r' & n & Hrun & Hlen & Hlt).
    + exact Hspan.
    + exact Hall.
    + reflexivity.
    + exists r', (S k + n)%nat. rewrite <- later_later.
      split; [exact Hrun|]. split.
      * rewrite Hlen. simpl events. rewrite length_app, readings_length.
        simpl increases. lia.
      * now rewrite Hlt, last_cons_default.
Qed.

(** As long as nothing is trimmed (the clock stays within one window),
    feeding the totals [t0, t1, ...] to a fresh [RateAverager] leaves one
    event per unit of increase between consecutive totals: decreases
    (counter resets) add nothing, and the first total only sets the
    baseline. *)
Theorem event_count_is_total_increase (win t0 : Z) (totals : list Z)
  (w : World) :
  (forall i j : nat, clock w j - win <= clock w i) ->
  exists (r : RateAverager) (n : nat),
    ra_run (map Update (t0 :: totals)) (mkRateAverager [] win None) w
    = Return (r, later w n)
    /\ Z.of_nat (length (events r)) = increases t0 totals
    /\ _last_total r = Some (List.last totals t0).
Proof.
  intros Hspan. simpl ra_run. simpl ra_deliver.
  rewrite (bind_Return _ _ _ _ _
             (update_from_total_first t0 (mkRateAverager [] win None) w
                                      eq_refl)).
  destruct (updates_count totals (mkRateAverager [] win (Some t0)) w t0)
    as (r & n & Hrun & Hlen & Hlt).
  - exact Hspan.
  - constructor.
  - reflexivity.
  - exists r, n. simpl in Hlen. now repeat split.
Qed.

Lemma event_count_is_total_increase_witness :
  exists (r : RateAverager) (n : nat),
    ra_run (map Update [0; 0; 5; 5; 12; 3; 4])
           (mkRateAverager [] 3600000000 None) at_200s
    = Return (r, later at_200s n)
    /\ Z.of_nat (length (events r)) = increases 0 [0; 5; 5; 12; 3; 4]
    /\ _last_total r = Some (List.last [0; 5; 5; 12; 3; 4] 0).
Proof.
  apply (event_count_is_total_increase 3600000000 0 [0; 5; 5; 12; 3; 4]
                                       at_200s).
  intros i j. simpl. lia.
Defined.

(** ** The sample log *)

Lemma order_insert_perm {A : Type} (leb : A -> A -> bool) (x : A) (l : list A) :
  Permutation (order_insert leb x l) (x :: l).
Proof.
  induction l as [|y l IH]; simpl; [reflexivity|].
  destruct (leb x y); [reflexivity|].
  rewrite IH. apply perm_swap.
Qed.

Lemma order_by_perm {A : Type} (leb : A -> A -> bool) (l : list A) :
  Permutation (order_by leb l) l.
Proof.
  unfold order_by. induction l as [|x l IH]; simpl; [reflexivity|].
  rewrite order_insert_perm. now constructor.
Qed.

Lemma order_insert_sorted {A : Type} (key : A -> Z) (x : A) (l : list A) :
  StronglySorted (fun a b => key a <= key b) l ->
  StronglySorted (fun a b => key a <= key b)
                 (order_insert (fun a b => key a <=? key b) x l).
Proof.
  induction 1 as [|y l Hs IH Hy]; simpl.
  - repeat constructor.
  - destruct (Z.leb_spec (key x) (key y)) as [Hle|Hgt].
    + constructor; [now constructor|].
      constructor; [exact Hle|].
      apply (Forall_impl _ _ _ Hy). intros z Hz. lia.
    + constructor; [exact IH|].
      rewrite order_insert_perm. constructor; [lia | exact Hy].
Qed.

(** What the log returns for a job, on load and on export: exactly the
    rows of that job, each once, in ascending order of their
    timestamps. *)
Theorem select_samples_sorted_complete (jid : Z) (c : Connection) :
  StronglySorted (fun a b => s_ts a <= s_ts b) (select_samples jid c)
  /\ Permutation (select_samples jid c)
                 (filter (fun r => s_job_id r =? jid) (samples (working c)))
  /\ Forall (fun r => s_job_id r = jid) (select_samples jid c).
Proof.
  unfold select_samples.
  set (rows := filter _ _).
  split; [|split].
  - unfold order_by. induction rows as [|r rows IH]; simpl; [constructor|].
    now apply (order_insert_sorted s_ts).
  - apply order_by_perm.
  - rewrite order_by_perm. subst rows.
    apply Forall_forall. intros r Hr.
    apply list_elem_of_filter in Hr as [Hjob _].
    apply Is_true_true in Hjob. now apply Z.eqb_eq.
Qed.

Lemma append_sample_store (accepted rejected total : Z) (rate : Q)
  (s s' : Dashboard) (w w' : World) :
  append_sample accepted rejected total rate s w = Return (s', w') ->
  working (db s') = working (db s)
  \/ exists jid : Z,
       current_job_id s = Some jid /\ jid <> 0
       /\ working (db s')
          = mkTables (jobs (working (db s)))
              (samples (working (db s))
               ++ [new_sample jid (clock w (ticks w))
                              (mkValues accepted rejected total rate) (db s)]).
Proof.
  destruct (current_job_id s) as [jid|] eqn:Hjob.
  - destruct (Z.eq_dec jid 0) as [->|Hjid].
    + unfold append_sample. rewrite Hjob. simpl. intros [= <- _]. now left.
    + rewrite (append_sample_eq _ _ _ _ jid s w Hjob Hjid).
      intros [= <- _]. right. exists jid. split; [reflexivity|].
      split; [exact Hjid|]. destruct (_ >=? 10); reflexivity.
  - unfold append_sample. rewrite Hjob. intros [= <- _]. now left.
Qed.

(** Appending a sample never touches another job: what the log returns for
    a job that is not the current one is the same before and after. *)
Theorem append_sample_other_job (accepted rejected total : Z) (rate : Q)
  (s s' : Dashboard) (w w' : World) (other : Z) :
  current_job_id s <> Some other ->
  append_sample accepted rejected total rate s w = Return (s', w') ->
  select_samples other (db s') = select_samples other (db s).
Proof.
  intros Hother Hrun.
  destruct (append_sample_store _ _ _ _ _ _ _ _ Hrun)
    as [Hsame | (jid & Hjob & _ & Hw)];
    unfold select_samples.
  - now rewrite Hsame.
  - rewrite Hw. simpl samples. rewrite filter_app.
    rewrite filter_cons_False, filter_nil, app_nil_r; [reflexivity|].
    simpl. intros Heq. apply Is_true_true, Z.eqb_eq in Heq. congruence.
Qed.

Lemma append_sample_other_job_witness :
  select_samples 2
    (db (set_pending (Some 1)
           (set_db (insert_sample 1 0 3 1 4 0 (db logging)) logging)))
  = select_samples 2 (db logging).
Proof.
  apply (append_sample_other_job 3 1 4 0 logging _ ticking (later ticking 1) 2).
  - discriminate.
  - reflexivity.
Defined.

Lemma append_sample_working (v : Values) (s : Dashboard) (w : World)
  (jid : Z) :
  current_job_id s = Some jid -> jid <> 0 ->
  exists s' : Dashboard,
    append_sample (v_accepted v) (v_rejected v) (v_total v) (v_rate v) s w
    = Return (s', later w 1)
    /\ working (db s')
       = mkTables (jobs (working (db s)))
           (samples (working (db s))
            ++ [new_sample jid (clock w (ticks w)) v (db s)])
    /\ current_job_id s' = Some jid.
Proof.
  intros Hjob Hjid. rewrite (append_sample_eq _ _ _ _ jid s w Hjob Hjid).
  destruct v. destruct (_ >=? 10); eexists; repeat split; exact Hjob.
Qed.

(** Insert, then look up: after [append_sample] with an active job, what
    the log returns for that job is what it returned before plus one row,
    which carries the job, the values passed and the time of the call,
    under an id no other sample has. *)
Theorem append_sample_then_select (v : Values) (s : Dashboard) (w : World)
  (jid : Z) :
  current_job_id s = Some jid ->
  jid <> 0 ->
  exists s' : Dashboard,
    append_sample (v_accepted v) (v_rejected v) (v_total v) (v_rate v) s w
    = Return (s', later w 1)
    /\ Permutation (select_samples jid (db s'))
                   (new_sample jid (clock w (ticks w)) v (db s)
                    :: select_samples jid (db s))
    /\ row_values (new_sample jid (clock w (ticks w)) v (db s)) = v
    /\ ~ In (s_id (new_sample jid (clock w (ticks w)) v (db s)))
            (map s_id (samples (working (db s)))).
Proof.
  intros Hjob Hjid.
  destruct (append_sample_working v s w jid Hjob Hjid) as (s' & Hrun & Hw & _).
  exists s'. split; [exact Hrun|]. split; [|split].
  - unfold select_samples at 1. rewrite Hw. simpl samples.
    rewrite order_by_perm, filter_app.
    rewrite filter_cons_True, filter_nil
      by (simpl; apply Is_true_true, Z.eqb_refl).
    rewrite <- Permutation_cons_append. constructor.
    symmetry. apply order_by_perm.
  - destruct v. reflexivity.
  - simpl. unfold next_id.
    generalize (map s_id (samples (working (db s)))) as ids.
    intros ids Hin.
    assert (Hmax : forall x, In x ids -> x <= foldr Z.max 0 ids).
    { clear. induction ids as [|y ids IH]; simpl; [tauto|].
      intros x [->|Hx]; [lia|]. specialize (IH x Hx). lia. }
    specialize (Hmax _ Hin). lia.
Qed.

Lemma append_sample_then_select_witness :
  exists s' : Dashboard,
    append_sample 3 1 4 0 logging ticking = Return (s', later ticking 1)
    /\ Permutation (select_samples 1 (db s'))
                   (new_sample 1 (clock ticking (ticks ticking))
                               (mkValues 3 1 4 0) (db logging)
                    :: select_samples 1 (db logging))
    /\ row_values (new_sample 1 (clock ticking (ticks ticking))
                              (mkValues 3 1 4 0) (db logging))
       = mkValues 3 1 4 0
    /\ ~ In (s_id (new_sample 1 (clock ticking (ticks ticking))
                              (mkValues 3 1 4 0) (db logging)))
            (map s_id (samples (working (db logging)))).
Proof.
  apply (append_sample_then_select (mkValues 3 1 4 0) logging ticking 1).
  - reflexivity.
  - lia.
Defined.


Lemma load_job_data_frame (jid : Z) (s : Dashboard) :
  frame (load_job_data jid s) = frame s
  /\ job_combo (load_job_data jid s) = job_combo s
  /\ current_job_id (load_job_data jid s) = current_job_id s.
Proof. repeat split. Qed.

Lemma load_jobs_eq (s : Dashboard) :
  frame (load_jobs s) = frame s
  /\ job_combo (load_jobs s) = map j_id (select_jobs (db s))
  /\ current_job_id (load_jobs s) = option_map j_id (head (select_jobs (db s))).
Proof. unfold load_jobs. destruct (select_jobs (db s)); repeat split. Qed.

Lemma select_job_eq (idx : Z) (s : Dashboard) :
  frame (select_job idx s) = frame s
  /\ job_combo (select_job idx s) = job_combo s
  /\ (current_job_id (select_job idx s) = current_job_id s
      \/ exists j : Z, In j (job_combo s)
                       /\ current_job_id (select_job idx s) = Some j).
Proof.
  unfold select_job. destruct (idx <? 0); [repeat split; now left|].
  destruct (nth_error (job_combo s) (Z.to_nat idx)) as [j|] eqn:Hnth;
    [|repeat split; now left].
  repeat split. right. exists j. split; [|reflexivity].
  now apply nth_error_In in Hnth.
Qed.

(** [new_job] either does nothing, or inserts the job, commits and reloads
    the combo box. *)
Lemma new_job_eq (name : string) (ok : bool) (s : Dashboard) (w : World) :
  new_job name ok s w = Return (s, w)
  \/ (ok = true /\ strip name <> ""%string
      /\ new_job name ok s w
         = Return (load_jobs
                     (set_db (commit (insert_job (strip name)
                                        (clock w (ticks w)) (db s))) s),
                   later w 1)).
Proof.
  unfold new_job. destruct ok; simpl; [|now left].
  destruct (strip name) as [|c rest] eqn:Hstrip; simpl; [now left|].
  right. split; [reflexivity|]. split; [discriminate|].
  now rewrite (bind_Return _ _ _ _ _ (datetime_now_eq w)).
Qed.




(** ** What the event loop preserves *)

Lemma run_preserves (P : Dashboard -> Prop) :
  (forall (c : call) (s s' : Dashboard) (w w' : World),
     well_formed s -> P s -> deliver c s w = Return (s', w') -> P s') ->
  forall (cs : list call) (s s' : Dashboard) (w w' : World),
    well_formed s -> P s -> run cs s w = Return (s', w') -> P s'.
Proof.
  intros Hstep. induction cs as [|c cs IH]; intros s s' w w' Hwf HP; simpl.
  - now intros [= <- _].
  - unfold bind. destruct (deliver c s w) as [[s1 w1]|e] eqn:Hd; [|discriminate].
    apply IH.
    + destruct (deliver_well_formed c s w Hwf) as (s2 & n & Hd' & Hwf').
      rewrite Hd in Hd'. now injection Hd' as <- _.
    + exact (Hstep c s s1 w w1 Hwf HP Hd).
Qed.

(** [on_data], step by step. *)
Lemma on_data_steps (d : gmap string Z) (self : Dashboard) (w : World) :
  window (rate_calc self) <> 0 ->
  exists (rc1 rc2 : RateAverager) (n1 : nat) (rate : Q),
    update_from_total (derived_total d) (rate_calc self) (later w 1)
    = Return (rc1, later w (1 + n1))
    /\ hourly_rate rc1 (later w (1 + n1))
       = Return ((rate, rc2), later w (2 + n1))
    /\ exists self1 : Dashboard,
         frame self1
         = (db self, _pending self, rate_calc self, last_values self,
            Some (seconds_now w),
            match prev_total self with
            | None => Some (seconds_now w)
            | Some p => if derived_total d >? p then Some (seconds_now w)
                        else last_cycle_ts self
            end,
            Some (derived_total d), data_timeout self, cycle_timeout self,
            health_tag self)
         /\ job_combo self1 = job_combo self
         /\ current_job_id self1 = current_job_id self
         /\ on_data d self w
            = Return (set_last_values
                        (mkValues (py_or (d !! "accepted"%string) 0)
                                  (py_or (d !! "rejected"%string) 0)
                                  (derived_total d) rate)
                        (set_history
                           (deque_append rate (rate_history self))
                           (deque_append (clock w (ticks w + 2 + n1)%nat)
                                         (time_history self))
                           (set_rate_calc rc2 self1)),
                      later w (3 + n1)).
Proof.
  intros Hwin. unfold on_data, derived_total.
  rewrite (bind_Return _ _ _ _ _ (time_time_eq w)).
  change (prev_total (set_last_data_ts (Some (seconds_now w)) self))
    with (prev_total self).
  set (total := py_or (d !! "total"%string) _).
  set (s1 := set_prev_total _ _).
  assert (Hs1 : frame s1
                = (db self, _pending self, rate_calc self, last_values self,
                   Some (seconds_now w),
                   match prev_total self with
                   | None => Some (seconds_now w)
                   | Some p => if total >? p then Some (seconds_now w)
                               else last_cycle_ts self
                   end,
                   Some total, data_timeout self, cycle_timeout self,
                   health_tag self)
                /\ job_combo s1 = job_combo self
                /\ current_job_id s1 = current_job_id self
                /\ rate_history s1 = rate_history self
                /\ time_history s1 = time_history self).
  { subst s1. destruct (prev_total self) as [p|]; [destruct (total >? p)|];
      repeat split. }
  destruct Hs1 as (Hframe & Hcombo & Hcur & Hrh & Hth).
  assert (Hrc : rate_calc s1 = rate_calc self) by now injection Hframe.
  destruct (update_from_total_returns total (rate_calc s1) (later w 1))
    as (rc1 & n1 & Hupd & Hw1).
  rewrite (bind_Return _ _ _ _ _ Hupd).
  destruct (hourly_rate_returns rc1 (later (later w 1) n1))
    as (rate & rc2 & Hrate & Hw2).
  { congruence. }
  rewrite (bind_Return _ _ _ _ _ Hrate).
  rewrite (bind_Return _ _ _ _ _ (datetime_now_eq _)).
  rewrite !later_later in *. rewrite Hrc in Hupd.
  exists rc1, rc2, n1, rate.
  split; [exact Hupd|].
  split; [replace (2 + n1)%nat with (1 + n1 + 1)%nat by lia; exact Hrate|].
  exists s1. split; [exact Hframe|]. split; [exact Hcombo|].
  split; [exact Hcur|].
  cbv zeta. simpl clock. simpl ticks.
  change (rate_history (set_rate_calc rc2 s1)) with (rate_history s1).
  change (time_history (set_rate_calc rc2 s1)) with (time_history s1).
  rewrite Hrh, Hth. unfold ret.
  replace (ticks w + S (n1 + 1))%nat with (ticks w + 2 + n1)%nat by lia.
  replace (1 + (n1 + 1) + 1)%nat with (3 + n1)%nat by lia.
  reflexivity.
Qed.

(** What one delivery of the event loop does to the window: nothing to
    the store, the jobs, the histories and the rate state; or the steps
    of [on_data]; or one logged sample; or one created job; or one
    selected job. *)
Lemma deliver_effect (c : call) (s s' : Dashboard) (w w' : World) :
  well_formed s ->
  deliver c s w = Return (s', w') ->
  quiet_part s' = quiet_part s
  \/ (exists (d : gmap string Z) (rc1 rc2 : RateAverager) (n1 : nat)
             (rate : Q) (self1 : Dashboard),
        update_from_total (derived_total d) (rate_calc s) (later w 1)
        = Return (rc1, later w (1 + n1))
        /\ hourly_rate rc1 (later w (1 + n1))
           = Return ((rate, rc2), later w (2 + n1))
        /\ frame self1
           = (db s, _pending s, rate_calc s, last_values s,
              Some (seconds_now w),
              match prev_total s with
              | None => Some (seconds_now w)
              | Some p => if derived_total d >? p then Some (seconds_now w)
                          else last_cycle_ts s
              end,
              Some (derived_total d), data_timeout s, cycle_timeout s,
              health_tag s)
        /\ job_combo self1 = job_combo s
        /\ current_job_id self1 = current_job_id s
        /\ s' = set_last_values
                  (mkValues (py_or (d !! "accepted"%string) 0)
                            (py_or (d !! "rejected"%string) 0)
                            (derived_total d) rate)
                  (set_history
                     (deque_append rate (rate_history s))
                     (deque_append (clock w (ticks w + 2 + n1)%nat)
                                   (time_history s))
                     (set_rate_calc rc2 self1)))
  \/ (exists jid : Z,
        current_job_id s = Some jid /\ jid <> 0
        /\ let v := last_values s in
           let c := insert_sample jid (clock w (ticks w)) (v_accepted v)
                      (v_rejected v) (v_total v) (v_rate v) (db s) in
           s' = if pending_count s + 1 >=? 10
                then set_pending (Some 0) (set_db (commit c) (set_db c s))
                else set_pending (Some (pending_count s + 1)) (set_db c s))
  \/ (exists name : string,
        s' = load_jobs
               (set_db (commit (insert_job (strip name) (clock w (ticks w))
                                           (db s))) s))
  \/ (exists idx : Z, s' = select_job idx s).
Proof.
  intros Hwf. destruct c as [connected|d| | |name ok|idx|dt ct]; simpl.
  - unfold on_state. destruct connected.
    + rewrite (bind_Return _ _ _ _ _ (time_time_eq w)).
      intros [= <- _]. now left.
    + intros [= <- _]. now left.
  - destruct (on_data_steps d s w)
      as (rc1 & rc2 & n1 & rate & Hupd & Hrate & self1 & Hframe & Hcombo
          & Hcur & Hrun).
    { destruct Hwf as (Hw & _). rewrite Hw. discriminate. }
    rewrite Hrun. intros [= <- _]. right. left.
    now exists d, rc1, rc2, n1, rate, self1.
  - destruct (check_health_returns s w) as (tag & ->).
    intros [= <- _]. now left.
  - unfold log_sample_tick.
    destruct (current_job_id s) as [jid|] eqn:Hjob.
    + destruct (Z.eq_dec jid 0) as [->|Hjid].
      * unfold append_sample. rewrite Hjob. simpl. intros [= <- _]. now left.
      * rewrite (append_sample_eq _ _ _ _ jid s w Hjob Hjid).
        intros [= <- _]. right. right. left. now exists jid.
    + unfold append_sample. rewrite Hjob. intros [= <- _]. now left.
  - destruct (new_job_eq name ok s w) as [-> | (_ & _ & ->)].
    + intros [= <- _]. now left.
    + intros [= <- _]. right. right. right. left. now exists name.
  - intros [= <- _]. right. right. right. right. now exists idx.
  - intros [= <- _]. now left.
Qed.

Lemma durable_same_store (s s' : Dashboard) :
  db s' = db s -> _pending s' = _pending s -> durable s -> durable s'.
Proof.
  unfold durable, pending_count. intros -> ->. exact (fun H => H).
Qed.

Lemma durable_step (c : call) (s s' : Dashboard) (w w' : World) :
  well_formed s -> durable s -> deliver c s w = Return (s', w') -> durable s'.
Proof.
  intros Hwf Hdur Hd.
  destruct (deliver_effect c s s' w w' Hwf Hd)
    as [Hq | [(d & rc1 & rc2 & n1 & rate & self1 & _ & _ & Hframe & _ & _ & ->)
       | [(jid & Hjob & Hjid & Hs') | [(name & ->) | (idx & ->)]]]].
  - apply (durable_same_store s); [now injection Hq | now injection Hq | exact Hdur].
  - apply (durable_same_store s); [| | exact Hdur]; simpl; now injection Hframe.
  - cbv zeta in Hs'. destruct Hdur as (Hjobs & lost & Hlost & Hlen).
    rewrite Z.geb_leb in Hs'.
    destruct (Z.leb_spec 10 (pending_count s + 1)); subst s'.
    + split; [reflexivity|]. exists []. simpl.
      rewrite app_nil_r. split; [reflexivity|]. unfold pending_count. simpl. lia.
    + split; [exact Hjobs|]. eexists (lost ++ [_]). simpl. split.
      * rewrite Hlost, <- app_assoc. reflexivity.
      * rewrite length_app. simpl. unfold pending_count at 1. simpl. lia.
  - destruct (load_jobs_eq (set_db (commit (insert_job (strip name)
                                              (clock w (ticks w)) (db s))) s))
      as (Hframe & _).
    unfold durable, pending_count.
    replace (db (load_jobs _)) with
      (commit (insert_job (strip name) (clock w (ticks w)) (db s)))
      by (now injection Hframe).
    replace (_pending (load_jobs _)) with (_pending s)
      by (now injection Hframe).
    split; [reflexivity|]. exists []. simpl. rewrite app_nil_r.
    split; [reflexivity|].
    destruct Hwf as (_ & _ & _ & Hp). destruct (_pending s); lia.
  - destruct (select_job_eq idx s) as (Hframe & _).
    apply (durable_same_store s); [| | exact Hdur]; now injection Hframe.
Qed.

Lemma Dashboard_init_frame (stored : tables) :
  frame (Dashboard_init stored)
  = (init_db stored, None, RateAverager_init 1, mkValues 0 0 0 0, None, None,
     None, 5%Q, 60%Q, (TextOK, true)).
Proof.
  unfold Dashboard_init.
  now destruct (load_jobs_eq
                  (mkDashboard (init_db stored) [] None None
                     (RateAverager_init 1) (mkValues 0 0 0 0) None None None
                     5 60 (TextOK, true) [] [])) as (-> & _).
Qed.

Lemma run_durable (stored : tables) (cs : list call) (s : Dashboard)
  (w w' : World) :
  run cs (Dashboard_init stored) w = Return (s, w') ->
  durable s /\ well_formed s.
Proof.
  intros Hrun. split.
  - apply (run_preserves durable durable_step cs (Dashboard_init stored) s w w');
      [apply Dashboard_init_well_formed | | exact Hrun].
    pose proof (Dashboard_init_frame stored) as Hframe.
    unfold durable, pending_count.
    replace (db (Dashboard_init stored)) with (init_db stored)
      by (now injection Hframe).
    replace (_pending (Dashboard_init stored)) with (@None Z)
      by (now injection Hframe).
    split; [reflexivity|]. exists []. simpl. rewrite app_nil_r.
    split; [reflexivity | lia].
  - destruct (run_well_formed cs (Dashboard_init stored) w
                (Dashboard_init_well_formed stored)) as (s1 & n & Hrun' & Hwf).
    rewrite Hrun in Hrun'. now injection Hrun' as <- _.
Qed.

(** An orderly shutdown loses nothing: whatever the event loop delivered
    since the window was built, what the store holds after [closeEvent]
    is all that was inserted. *)
Theorem close_event_keeps_everything (stored : tables) (cs : list call)
  (s : Dashboard) (w w' : World) :
  run cs (Dashboard_init stored) w = Return (s, w') ->
  closeEvent s = working (db s).
Proof.
  intros Hrun.
  destruct (run_durable stored cs s w w' Hrun)
    as ((Hjobs & lost & Hlost & Hlen) & _).
  unfold closeEvent. unfold pending_count in Hlen.
  assert (Hzero : Z.of_nat (length lost) <= 0 ->
                  committed (db s) = working (db s)).
  { intros Hle. destruct lost; [|simpl in Hle; lia].
    rewrite app_nil_r in Hlost.
    destruct (committed (db s)), (working (db s)). simpl in *. congruence. }
  destruct (_pending s) as [p|]; [|now apply Hzero].
  destruct (Z.eqb_spec p 0) as [->|_]; [now apply Hzero | reflexivity].
Qed.

Lemma close_event_keeps_everything_witness :
  closeEvent one_pending
  = working (db one_pending).
Proof.
  apply (close_event_keeps_everything empty_store
           [NewJob "Line2" true; LogSampleTick] one_pending ticking
           (later ticking 2)).
  vm_compute. reflexivity.
Defined.

(** An abrupt end loses at most the 9 most recent samples and no job:
    whatever the event loop delivered, the committed jobs are all the
    jobs, and the committed samples are all the samples but a tail of at
    most 9. *)
Theorem crash_loses_at_most_9 (stored : tables) (cs : list call)
  (s : Dashboard) (w w' : World) :
  run cs (Dashboard_init stored) w = Return (s, w') ->
  jobs (committed (db s)) = jobs (working (db s))
  /\ exists lost : list sample_row,
       samples (working (db s)) = samples (committed (db s)) ++ lost
       /\ (length lost <= 9)%nat.
Proof.
  intros Hrun.
  destruct (run_durable stored cs s w w' Hrun)
    as ((Hjobs & lost & Hlost & Hlen) & (_ & _ & _ & Hp)).
  split; [exact Hjobs|]. exists lost. split; [exact Hlost|].
  unfold pending_count in Hlen. destruct (_pending s); lia.
Qed.

Lemma crash_loses_at_most_9_witness :
  jobs (committed (db one_pending))
  = jobs (working (db one_pending))
  /\ exists lost : list sample_row,
       samples (working (db one_pending))
       = samples (committed (db one_pending)) ++ lost
       /\ (length lost <= 9)%nat.
Proof.
  apply (crash_loses_at_most_9 empty_store
           [NewJob "Line2" true; LogSampleTick] one_pending ticking
           (later ticking 2)).
  vm_compute. reflexivity.
Defined.

Lemma references_same (stored : tables) (s s' : Dashboard) :
  db s' = db s -> job_combo s' = job_combo s ->
  current_job_id s' = current_job_id s ->
  references_resolve stored s -> references_resolve stored s'.
Proof.
  unfold references_resolve. intros -> -> ->. exact (fun H => H).
Qed.

Lemma references_load_jobs (stored : tables) (s : Dashboard) :
  Forall (fun r => In r (samples stored)
                   \/ In (s_job_id r) (map j_id (jobs (working (db s)))))
         (samples (working (db s))) ->
  references_resolve stored (load_jobs s).
Proof.
  intros Hsamples. destruct (load_jobs_eq s) as (Hframe & Hcombo & Hcur).
  assert (Hdb : db (load_jobs s) = db s) by now injection Hframe.
  unfold references_resolve. rewrite Hdb, Hcombo, Hcur.
  assert (Hin : forall j, In j (select_jobs (db s)) ->
                          In (j_id j) (map j_id (jobs (working (db s))))).
  { intros j Hj. apply in_map.
    apply (Permutation_in _ (order_by_perm _ _) Hj). }
  split; [|split; [|exact Hsamples]].
  - apply List.Forall_forall. intros j Hj.
    apply in_map_iff in Hj as (job & <- & Hjob). now apply Hin.
  - intros j Hj. destruct (select_jobs (db s)) as [|job rest] eqn:Hsel;
      [discriminate|].
    injection Hj as <-. apply Hin. now left.
Qed.

Lemma references_step (stored : tables) (c : call) (s s' : Dashboard)
  (w w' : World) :
  well_formed s -> references_resolve stored s ->
  deliver c s w = Return (s', w') -> references_resolve stored s'.
Proof.
  intros Hwf Href Hd.
  destruct (deliver_effect c s s' w w' Hwf Hd)
    as [Hq | [(d & rc1 & rc2 & n1 & rate & self1 & _ & _ & Hframe & Hcombo
               & Hcur & ->)
       | [(jid & Hjob & Hjid & Hs') | [(name & ->) | (idx & ->)]]]].
  - apply (references_same stored s); [| | | exact Href]; now injection Hq.
  - apply (references_same stored s); [| | | exact Href]; simpl;
      [now injection Hframe | exact Hcombo | exact Hcur].
  - cbv zeta in Hs'. destruct Href as (Hc & Hj & Hs).
    assert (Href' : references_resolve stored
              (set_db (insert_sample jid (clock w (ticks w))
                         (v_accepted (last_values s))
                         (v_rejected (last_values s))
                         (v_total (last_values s)) (v_rate (last_values s))
                         (db s)) s)).
    { split; [exact Hc|]. split; [exact Hj|]. simpl.
      apply Forall_app. split; [exact Hs|].
      constructor; [|constructor]. right. simpl. now apply Hj. }
    destruct (_ >=? 10); subst s'; exact Href'.
  - apply references_load_jobs. simpl.
    destruct Href as (_ & _ & Hs).
    apply (Forall_impl _ _ _ Hs). intros r [Hr|Hr]; [now left|right].
    rewrite map_app. apply in_or_app. now left.
  - destruct (select_job_eq idx s) as (Hframe & Hcombo & Hcur).
    destruct Href as (Hc & Hj & Hs).
    assert (Hdb : db (select_job idx s) = db s) by now injection Hframe.
    unfold references_resolve. rewrite Hdb, Hcombo.
    split; [exact Hc|]. split; [|exact Hs].
    destruct Hcur as [-> | (j & Hin & ->)]; [exact Hj|].
    intros j' [= <-]. rewrite List.Forall_forall in Hc. now apply Hc.
Qed.

(** References resolve: whatever the event loop delivered since the
    window was built on a store, the current job (if any) is a job of the
    store, and every sample that was not in the store at start-up
    carries the id of a job of the store. *)
Theorem references_always_resolve (stored : tables) (cs : list call)
  (s : Dashboard) (w w' : World) :
  run cs (Dashboard_init stored) w = Return (s, w') ->
  (forall j : Z, current_job_id s = Some j ->
     exists job : job_row, In job (jobs (working (db s))) /\ j_id job = j)
  /\ Forall (fun r => In r (samples stored)
                      \/ exists job : job_row,
                           In job (jobs (working (db s)))
                           /\ j_id job = s_job_id r)
            (samples (working (db s))).
Proof.
  intros Hrun.
  assert (Href : references_resolve stored s).
  { apply (run_preserves (references_resolve stored)
             (references_step stored) cs (Dashboard_init stored) s w w');
      [apply Dashboard_init_well_formed | | exact Hrun].
    unfold Dashboard_init. apply references_load_jobs. simpl.
    apply List.Forall_forall. intros r Hr. now left. }
  destruct Href as (_ & Hj & Hs). split.
  - intros j Hcur. specialize (Hj j Hcur).
    apply in_map_iff in Hj as (job & Hid & Hjob). now exists job.
  - apply (Forall_impl _ _ _ Hs). intros r [Hr|Hr]; [now left|right].
    apply in_map_iff in Hr as (job & Hid & Hjob). now exists job.
Qed.

Lemma references_always_resolve_witness :
  (forall j : Z, current_job_id one_pending = Some j ->
     exists job : job_row,
       In job (jobs (working (db one_pending))) /\ j_id job = j)
  /\ Forall (fun r => In r (samples empty_store)
                      \/ exists job : job_row,
                           In job (jobs (working (db one_pending)))
                           /\ j_id job = s_job_id r)
            (samples (working (db one_pending))).
Proof.
  apply (references_always_resolve empty_store
           [NewJob "Line2" true; LogSampleTick] one_pending ticking
           (later ticking 2)).
  vm_compute. reflexivity.
Defined.

Lemma deque_append_length {A : Type} (x : A) (l : list A) :
  (length l <= 600)%nat ->
  length (deque_append x l) = Nat.min 600 (S (length l)).
Proof.
  intros Hlen. unfold deque_append.
  assert (Hl : length (l ++ [x]) = S (length l))
    by (rewrite length_app; simpl; lia).
  destruct (Nat.ltb_spec 600 (length (l ++ [x]))) as [Hfull|Hroom].
  - destruct (l ++ [x]) as [|y l'] eqn:Heq; [simpl in Hl; lia|].
    change (tail (y :: l')) with l'. simpl length in Hl, Hfull. lia.
  - lia.
Qed.

Lemma deque_fold_length {A B : Type} (f : B -> A) (rows : list B) :
  forall h : list A,
    (length h <= 600)%nat ->
    length (foldl (fun h r => deque_append (f r) h) h rows)
    = Nat.min 600 (length h + length rows).
Proof.
  induction rows as [|r rows IH]; intros h Hlen; cbn [foldl length].
  - lia.
  - rewrite IH; rewrite deque_append_length by exact Hlen; lia.
Qed.

Lemma load_job_data_aligned (jid : Z) (s : Dashboard) :
  histories_aligned (load_job_data jid s).
Proof.
  unfold histories_aligned, load_job_data.
  cbn [rate_history time_history set_history].
  rewrite !deque_fold_length by (cbn [length]; lia).
  cbn [length]. lia.
Qed.

Lemma histories_step (c : call) (s s' : Dashboard) (w w' : World) :
  well_formed s -> histories_aligned s ->
  deliver c s w = Return (s', w') -> histories_aligned s'.
Proof.
  intros Hwf [Heq Hlen] Hd. unfold histories_aligned.
  destruct (deliver_effect c s s' w w' Hwf Hd)
    as [Hq | [(d & rc1 & rc2 & n1 & rate & self1 & _ & _ & _ & _ & _ & ->)
       | [(jid & _ & _ & Hs') | [(name & ->) | (idx & ->)]]]].
  - injection Hq as _ _ _ _ -> -> _ _ _. now split.
  - cbn [rate_history time_history set_history set_last_values].
    rewrite !deque_append_length by lia. lia.
  - cbv zeta in Hs'. destruct (_ >=? 10); subst s'; now split.
  - unfold load_jobs. destruct (select_jobs _) as [|job rest].
    + now split.
    + apply load_job_data_aligned.
  - unfold select_job.
    destruct (if idx <? 0 then None
              else nth_error (job_combo s) (Z.to_nat idx)) as [j|].
    + apply load_job_data_aligned.
    + now split.
Qed.

(** The two histories behind the plot stay aligned: whatever the event
    loop delivered, they hold the same number of points, at most 600. *)
Theorem histories_stay_aligned (stored : tables) (cs : list call)
  (s : Dashboard) (w w' : World) :
  run cs (Dashboard_init stored) w = Return (s, w') ->
  length (rate_history s) = length (time_history s)
  /\ (length (rate_history s) <= 600)%nat.
Proof.
  intros Hrun.
  apply (run_preserves histories_aligned histories_step cs
           (Dashboard_init stored) s w w');
    [apply Dashboard_init_well_formed | | exact Hrun].
  unfold Dashboard_init, load_jobs. simpl.
  destruct (select_jobs _) as [|job rest].
  - split; simpl; lia.
  - apply load_job_data_aligned.
Qed.

Lemma histories_stay_aligned_witness :
  time_history (fst after_short_session) = [3000000; 11000000]
  /\ length (rate_history (fst after_short_session)) = 2%nat
  /\ length (rate_history (fst after_short_session))
     = length (time_history (fst after_short_session))
  /\ (length (rate_history (fst after_short_session)) <= 600)%nat.
Proof.
  split; [vm_compute; reflexivity|]. split; [vm_compute; reflexivity|].
  apply (histories_stay_aligned empty_store short_session
           (fst after_short_session) every_second
           (snd after_short_session)).
  vm_compute. reflexivity.
Defined.

Lemma update_from_total_fields (total_count : Z) (r r' : RateAverager)
  (w w' : World) :
  update_from_total total_count r w = Return (r', w') ->
  window r' = window r /\ _last_total r' = Some total_count.
Proof.
  destruct (_last_total r) as [last|] eqn:Hlast.
  - rewrite (update_from_total_eq total_count last r w Hlast).
    now intros [= <- _].
  - rewrite (update_from_total_first total_count r w Hlast).
    now intros [= <- _].
Qed.

Lemma hourly_rate_fields (r r' : RateAverager) (w w' : World) (rate : Q) :
  hourly_rate r w = Return ((rate, r'), w') ->
  window r' = window r /\ _last_total r' = _last_total r.
Proof.
  rewrite hourly_rate_eq.
  destruct (_ <=? 1)%nat; [destruct (window r =? 0); [discriminate|]|];
    now intros [= _ <- _].
Qed.

Lemma totals_step (c : call) (s s' : Dashboard) (w w' : World) :
  well_formed s -> totals_agree s ->
  deliver c s w = Return (s', w') -> totals_agree s'.
Proof.
  intros Hwf [Hprev Hrate] Hd. unfold totals_agree.
  destruct (deliver_effect c s s' w w' Hwf Hd)
    as [Hq | [(d & rc1 & rc2 & n1 & rate & self1 & Hupd & Hhr & Hframe & _
               & _ & ->)
       | [(jid & _ & _ & Hs') | [(name & ->) | (idx & ->)]]]].
  - injection Hq as _ _ _ _ _ _ -> -> ->. now split.
  - simpl.
    destruct (update_from_total_fields _ _ _ _ _ Hupd) as [Hw1 Hl1].
    destruct (hourly_rate_fields _ _ _ _ _ Hhr) as [Hw2 Hl2].
    split.
    + injection Hframe as _ _ _ _ _ _ -> _ _ _. congruence.
    + assert (Hpos : 0 < window rc1).
      { destruct Hwf as (Hw & _). rewrite Hw1, Hw. reflexivity. }
      exact (hourly_rate_nonneg _ _ _ _ _ Hpos Hhr).
  - cbv zeta in Hs'. destruct (_ >=? 10); subst s'; now split.
  - destruct (load_jobs_eq (set_db (commit (insert_job (strip name)
                                              (clock w (ticks w)) (db s))) s))
      as (Hframe & _).
    injection Hframe as _ _ -> -> _ _ -> _ _ _. now split.
  - destruct (select_job_eq idx s) as (Hframe & _).
    injection Hframe as _ _ -> -> _ _ -> _ _ _. now split.
Qed.

Lemma run_totals_agree (stored : tables) (cs : list call) (s : Dashboard)
  (w w' : World) :
  run cs (Dashboard_init stored) w = Return (s, w') -> totals_agree s.
Proof.
  intros Hrun.
  apply (run_preserves totals_agree totals_step cs
           (Dashboard_init stored) s w w');
    [apply Dashboard_init_well_formed | | exact Hrun].
  pose proof (Dashboard_init_frame stored) as Hframe.
  unfold totals_agree.
  injection Hframe as _ _ -> -> _ _ -> _ _ _. split; [reflexivity|].
  simpl. apply Qle_refl.
Qed.

(** The health monitor and the rate estimator never disagree on the last
    total: whatever the event loop delivered, the window's [prev_total]
    is the estimator's baseline. *)
Theorem prev_total_is_baseline (stored : tables) (cs : list call)
  (s : Dashboard) (w w' : World) :
  run cs (Dashboard_init stored) w = Return (s, w') ->
  prev_total s = _last_total (rate_calc s).
Proof. intros Hrun. now destruct (run_totals_agree stored cs s w w' Hrun). Qed.

Lemma prev_total_is_baseline_witness :
  prev_total (fst after_short_session) = Some 8
  /\ prev_total (fst after_short_session)
     = _last_total (rate_calc (fst after_short_session)).
Proof.
  split; [vm_compute; reflexivity|].
  apply (prev_total_is_baseline empty_store short_session
           (fst after_short_session) every_second
           (snd after_short_session)).
  vm_compute. reflexivity.
Defined.

(** The rate that the window shows, plots and logs is never negative,
    whatever the event loop delivered and whatever the clock did. *)
Theorem shown_rate_nonneg (stored : tables) (cs : list call)
  (s : Dashboard) (w w' : World) :
  run cs (Dashboard_init stored) w = Return (s, w') ->
  (0 <= v_rate (last_values s))%Q.
Proof. intros Hrun. now destruct (run_totals_agree stored cs s w w' Hrun). Qed.

Lemma shown_rate_nonneg_witness :
  (v_rate (last_values (fst after_short_session)) == 5400)%Q
  /\ (0 <= v_rate (last_values (fst after_short_session)))%Q.
Proof.
  split; [vm_compute; reflexivity|].
  apply (shown_rate_nonneg empty_store short_session
           (fst after_short_session) every_second
           (snd after_short_session)).
  vm_compute. reflexivity.
Defined.

(** ** Health and logging, end to end *)

Lemma Qgtb_false (x y : Q) : (x <= y)%Q -> Qgtb x y = false.
Proof.
  intros Hle. unfold Qgtb. apply negb_false_iff. now apply Qle_bool_iff.
Qed.

(** Cycles that stopped are reported while data still flows: a frame
    whose total is not above the previous one refreshes the data clock
    only; a health tick that follows within the data timeout, but later
    than the cycle timeout after the last counted cycle, shows NO
    CYCLES. *)
Theorem stalled_cycles_are_reported (d : gmap string Z) (s : Dashboard)
  (w w2 : World) (p : Z) (last_cycle : Q) :
  window (rate_calc s) <> 0 ->
  prev_total s = Some p ->
  derived_total d <= p ->
  last_cycle_ts s = Some last_cycle ->
  (seconds_now w2 - seconds_now w <= data_timeout s)%Q ->
  (cycle_timeout s < seconds_now w2 - last_cycle)%Q ->
  exists (s1 : Dashboard) (n : nat),
    on_data d s w = Return (s1, later w n)
    /\ last_data_ts s1 = Some (seconds_now w)
    /\ last_cycle_ts s1 = Some last_cycle
    /\ check_health s1 w2
       = Return (set_health_tag (TextNoCycles (cycle_timeout s), false) s1,
                 later w2 1).
Proof.
  intros Hwin Hprev Hle Hcycle Hfresh Hstale.
  destruct (on_data_steps d s w Hwin)
    as (rc1 & rc2 & n1 & rate & _ & _ & self1 & Hframe & _ & _ & Hrun).
  rewrite Hprev in Hframe.
  replace (derived_total d >? p) with false in Hframe
    by (symmetry; rewrite Z.gtb_ltb; apply Z.ltb_ge; lia).
  rewrite Hcycle in Hframe.
  injection Hframe as _ _ _ _ Hld Hlc _ Hdt Hct _.
  eexists _, _. split; [exact Hrun|].
  split; [exact Hld|]. split; [exact Hlc|].
  unfold check_health. rewrite (bind_Return _ _ _ _ _ (time_time_eq w2)).
  cbn [last_data_ts last_cycle_ts data_timeout cycle_timeout set_last_values
       set_history set_rate_calc].
  rewrite Hld, Hlc, Hdt, Hct.
  rewrite (Qgtb_false _ _ Hfresh), (Qgtb_true _ _ Hstale). reflexivity.
Qed.

Lemma stalled_cycles_are_reported_witness :
  exists (s1 : Dashboard) (n : nat),
    on_data ∅ stalled at_200s = Return (s1, later at_200s n)
    /\ last_data_ts s1 = Some (seconds_now at_200s)
    /\ last_cycle_ts s1 = Some 100%Q
    /\ check_health s1 (later at_200s 4)
       = Return (set_health_tag (TextNoCycles (cycle_timeout stalled), false)
                                s1,
                 later (later at_200s 4) 1).
Proof.
  apply (stalled_cycles_are_reported ∅ stalled at_200s (later at_200s 4) 7
                                     100%Q).
  - vm_compute. discriminate.
  - reflexivity.
  - vm_compute. discriminate.
  - reflexivity.
  - vm_compute. discriminate.
  - vm_compute. reflexivity.
Defined.

(** What the logging tick writes after a frame: with an active job,
    [on_data] followed by [log_sample_tick] returns and appends exactly
    one row, which carries the job, the counts and the total derived from
    the frame, the rate just computed and the time of the tick. *)
Theorem tick_logs_last_frame (d : gmap string Z) (s : Dashboard) (w : World)
  (jid : Z) :
  window (rate_calc s) <> 0 ->
  current_job_id s = Some jid ->
  jid <> 0 ->
  exists (s1 s2 : Dashboard) (n : nat) (row : sample_row),
    on_data d s w = Return (s1, later w n)
    /\ log_sample_tick s1 (later w n) = Return (s2, later w (S n))
    /\ samples (working (db s2)) = samples (working (db s)) ++ [row]
    /\ s_job_id row = jid
    /\ s_ts row = clock w (ticks w + n)%nat
    /\ s_accepted row = py_or (d !! "accepted"%string) 0
    /\ s_rejected row = py_or (d !! "rejected"%string) 0
    /\ s_total row = derived_total d
    /\ s_rate row = v_rate (last_values s1).
Proof.
  intros Hwin Hjob Hjid.
  destruct (on_data_eq d s w Hwin)
    as (s1 & n & Hrun & _ & _ & _ & Ht & Ha & Hr & _ & _ & Hdb & Hcur).
  rewrite Hjob in Hcur.
  destruct (append_sample_working (last_values s1) s1 (later w n) jid Hcur Hjid)
    as (s2 & Htick & Hw & _).
  exists s1, s2, n,
    (new_sample jid (clock w (ticks w + n)%nat) (last_values s1) (db s1)).
  split; [exact Hrun|]. split.
  { unfold log_sample_tick. rewrite Htick, later_later.
    do 3 f_equal. lia. }
  rewrite Hw, Hdb. simpl. now repeat split.
Qed.

Lemma tick_logs_last_frame_witness :
  exists (s1 s2 : Dashboard) (n : nat) (row : sample_row),
    on_data frame_zero_total logging ticking = Return (s1, later ticking n)
    /\ log_sample_tick s1 (later ticking n)
       = Return (s2, later ticking (S n))
    /\ samples (working (db s2)) = samples (working (db logging)) ++ [row]
    /\ s_job_id row = 1
    /\ s_ts row = clock ticking (ticks ticking + n)%nat
    /\ s_accepted row = py_or (frame_zero_total !! "accepted"%string) 0
    /\ s_rejected row = py_or (frame_zero_total !! "rejected"%string) 0
    /\ s_total row = derived_total frame_zero_total
    /\ s_rate row = v_rate (last_values s1).
Proof.
  apply (tick_logs_last_frame frame_zero_total logging ticking 1).
  - vm_compute. discriminate.
  - reflexivity.
  - lia.
Defined.

(** ** The RTDE thread *)

Lemma stream_ends (dev : Device) (n : nat) :
  stop_latched dev n ->
  forall (fuel : nat) (last_emit : Q) (t : Thread),
    (n - n_stop t < fuel)%nat ->
    exists (e : session_end) (last_emit' : Q) (t' : Thread),
      stream dev fuel last_emit t = (e, last_emit', t')
      /\ e <> Unfinished
      /\ (n_stop t < n_stop t')%nat
      /\ receiver t' = receiver t.
Proof.
  intros Hlatch. induction fuel as [|fuel IH]; intros last_emit t Hfuel;
    [lia|]. simpl.
  destruct (stop_requested dev (n_stop t)) eqn:Hstop.
  - eexists _, _, _. split; [reflexivity|]. simpl.
    split; [discriminate|]. split; [lia | reflexivity].
  - assert (Hlt : (n_stop t < n)%nat).
    { destruct (Nat.lt_ge_cases (n_stop t) n) as [H|H]; [exact H|].
      rewrite (Hlatch _ H) in Hstop. discriminate. }
    destruct (poll_result dev (n_poll t)) as [pkg|e].
    + destruct (Qle_bool (1 # 10) (seconds_now (later (world t) 1) - last_emit));
        match goal with |- context [stream dev fuel ?l ?t1] =>
          destruct (IH l t1) as (e & l' & t' & Hrun & He & Hn & Hr);
            [simpl; lia|];
          exists e, l', t'; rewrite Hrun; simpl in Hn, Hr;
            (split; [reflexivity|]); (split; [exact He|]);
            (split; [lia | exact Hr])
        end.
    + eexists _, _, _. split; [reflexivity|]. simpl.
      split; [discriminate|]. split; [lia | reflexivity].
Qed.

(** A stop request ends the thread: once the stop flag stays set from its
    [n]-th read on, [run] returns, with any fuel above the reads of the
    flag that are left. *)
Theorem run_stops_when_asked (dev : Device) (n fuel : nat) (t : Thread) :
  stop_latched dev n ->
  (n - n_stop t < fuel)%nat ->
  exists t' : Thread, run_loop dev fuel t = (Finished, t').
Proof.
  intros Hlatch. revert t. induction fuel as [|fuel IH]; intros t Hfuel;
    [lia|]. simpl.
  destruct (stop_requested dev (n_stop t)) eqn:Hstop; [eauto|].
  assert (Hlt : (n_stop t < n)%nat).
  { destruct (Nat.lt_ge_cases (n_stop t) n) as [H|H]; [exact H|].
    rewrite (Hlatch _ H) in Hstop. discriminate. }
  destruct (connect_result dev (n_connect t)) as [e|].
  - apply IH. unfold finally, reconnecting. simpl.
    destruct (receiver t); simpl; lia.
  - match goal with |- context [stream dev fuel 0%Q ?t1] =>
      destruct (stream_ends dev n Hlatch fuel 0%Q t1)
        as (e & l' & t' & Hrun & He & Hn & Hr); [simpl; lia|];
      rewrite Hrun; simpl in Hn
    end.
    destruct e as [|e|]; [| |congruence]; apply IH;
      unfold finally, reconnecting; simpl;
      destruct (receiver t'); simpl; lia.
Qed.

Lemma run_stops_when_asked_witness :
  exists t' : Thread,
    run_loop flaky 6 (RTDEThread_init ticking) = (Finished, t').
Proof.
  apply (run_stops_when_asked flaky 4 6 (RTDEThread_init ticking)).
  - intros i Hi. change ((4 <=? i)%nat = true). now apply Nat.leb_le.
  - simpl. lia.
Defined.

Lemma stream_receiver (dev : Device) :
  forall (fuel : nat) (last_emit last_emit' : Q) (t t' : Thread)
         (e : session_end),
    stream dev fuel last_emit t = (e, last_emit', t') ->
    receiver t' = receiver t.
Proof.
  induction fuel as [|fuel IH]; intros last_emit last_emit' t t' e; simpl.
  - now intros [= _ _ <-].
  - destruct (stop_requested dev (n_stop t)); [now intros [= _ _ <-]|].
    destruct (poll_result dev (n_poll t)) as [pkg|err];
      [|now intros [= _ _ <-]].
    destruct (Qle_bool (1 # 10) (seconds_now (later (world t) 1) - last_emit));
      intros Hrun; apply IH in Hrun; exact Hrun.
Qed.

Lemma released_finally (t : Thread) :
  released t -> released (finally t).
Proof.
  unfold released, finally. destruct (receiver t) as [r|] eqn:Hr; simpl.
  - intros _. rewrite Hr. now exists (trace t).
  - rewrite Hr. exact (fun H => H).
Qed.

Lemma released_finally_held (t : Thread) (r : nat) :
  receiver t = Some r -> released (finally t).
Proof.
  intros Hr. unfold released, finally. rewrite Hr. simpl. rewrite Hr.
  now exists (trace t).
Qed.

Lemma run_loop_released (dev : Device) :
  forall (fuel : nat) (t t' : Thread),
    released t -> run_loop dev fuel t = (Finished, t') -> released t'.
Proof.
  induction fuel as [|fuel IH]; intros t t' Hrel; simpl; [discriminate|].
  destruct (stop_requested dev (n_stop t)).
  - intros [= <-]. exact Hrel.
  - destruct (connect_result dev (n_connect t)) as [e|].
    + apply IH. unfold released in Hrel.
      destruct (receiver t) as [r|] eqn:Hr.
      * now apply (released_finally_held _ r).
      * unfold released, finally, reconnecting. simpl. rewrite Hr. simpl.
        rewrite Hr. intros msg Hin.
        rewrite <- !app_assoc in Hin. apply in_app_or in Hin as [Hin|Hin].
        -- exact (Hrel msg Hin).
        -- simpl in Hin. intuition discriminate.
    + match goal with |- context [stream dev fuel 0%Q ?t1] =>
        destruct (stream dev fuel 0%Q t1) as [[e l'] t2] eqn:Hrun;
        pose proof (stream_receiver _ _ _ _ _ _ _ Hrun) as Hr2; simpl in Hr2
      end.
      destruct e as [|e|]; [| |discriminate]; apply IH;
        now apply (released_finally_held _ (n_connect t)).
Qed.

(** The device handle is released on every exit: when [run] returns and
    the thread holds a receiver, its last action was to disconnect that
    receiver; when it holds none, it never reported a connection. *)
Theorem handle_released_on_exit (import_error : option string) (dev : Device)
  (fuel : nat) (w : World) (t' : Thread) :
  RTDEThread_run import_error dev fuel (RTDEThread_init w) = (Finished, t') ->
  match receiver t' with
  | Some r => exists before : list action, trace t' = before ++ [Disconnect r]
  | None => forall msg : string, ~ In (EmitState true msg) (trace t')
  end.
Proof.
  unfold RTDEThread_run. destruct import_error as [e|].
  - intros [= <-]. simpl. intros msg [Hin|[]]. discriminate Hin.
  - apply run_loop_released. simpl. intros msg [].
Qed.

Lemma handle_released_on_exit_witness :
  match receiver (snd (run_loop flaky 6 (RTDEThread_init ticking))) with
  | Some r =>
      exists before : list action,
        trace (snd (run_loop flaky 6 (RTDEThread_init ticking)))
        = before ++ [Disconnect r]
  | None =>
      forall msg : string,
        ~ In (EmitState true msg)
             (trace (snd (run_loop flaky 6 (RTDEThread_init ticking))))
  end.
Proof.
  apply (handle_released_on_exit None flaky 6 ticking).
  vm_compute. reflexivity.
Defined.

Lemma reconnects_from (dev : Device) (errors : nat -> string) (k : nat) :
  forall (fuel : nat) (t : Thread),
    receiver t = None ->
    (forall i : nat, (i <= k)%nat -> stop_requested dev (n_stop t + i) = false) ->
    stop_requested dev (n_stop t + k + 1) = true ->
    stop_requested dev (n_stop t + k + 2) = true ->
    (forall i : nat, (i < k)%nat ->
       connect_result dev (n_connect t + i) = Some (errors (n_connect t + i)%nat)) ->
    connect_result dev (n_connect t + k) = None ->
    (k + 2 <= fuel)%nat ->
    exists t' : Thread,
      run_loop dev fuel t = (Finished, t')
      /\ trace t'
         = trace t ++ failed_attempts errors (n_connect t) k
           ++ [Connect; EmitState true "Connected";
               Disconnect (n_connect t + k)].
Proof.
  induction k as [|k IH]; intros fuel t Hr Hgo Hstop1 Hstop2 Hfail Hok Hfuel.
  - destruct fuel as [|[|fuel]]; [lia | lia |].
    specialize (Hgo 0%nat (Nat.le_refl 0)).
    rewrite Nat.add_0_r in Hgo, Hok, Hstop1, Hstop2.
    replace (n_stop t + 1)%nat with (S (n_stop t)) in Hstop1 by lia.
    replace (n_stop t + 2)%nat with (S (S (n_stop t))) in Hstop2 by lia.
    simpl. rewrite Hgo, Hok. simpl. rewrite Hstop1. simpl. rewrite Hstop2.
    eexists. split; [reflexivity|]. simpl.
    rewrite Nat.add_0_r, <- !app_assoc. reflexivity.
  - destruct fuel as [|fuel]; [lia|].
    pose proof (Hgo 0%nat ltac:(lia)) as Hgo0. rewrite Nat.add_0_r in Hgo0.
    pose proof (Hfail 0%nat ltac:(lia)) as Hfail0.
    rewrite Nat.add_0_r in Hfail0.
    simpl. rewrite Hgo0, Hfail0.
    match goal with |- context [run_loop dev fuel ?t1] =>
      destruct (IH fuel t1) as (t' & Hrun & Htrace)
    end.
    + unfold finally, reconnecting. simpl. rewrite Hr. simpl. exact Hr.
    + intros i Hi. unfold finally, reconnecting. simpl. rewrite Hr. simpl.
      match goal with |- stop_requested dev ?x = _ =>
        replace x with (n_stop t + S i)%nat by lia end.
      apply Hgo. lia.
    + unfold finally, reconnecting. simpl. rewrite Hr. simpl.
      match goal with |- stop_requested dev ?x = _ =>
        replace x with (n_stop t + S k + 1)%nat by lia end.
      exact Hstop1.
    + unfold finally, reconnecting. simpl. rewrite Hr. simpl.
      match goal with |- stop_requested dev ?x = _ =>
        replace x with (n_stop t + S k + 2)%nat by lia end.
      exact Hstop2.
    + intros i Hi. unfold finally, reconnecting. simpl. rewrite Hr. simpl.
      match goal with |- connect_result dev ?x = Some (errors ?y) =>
        replace x with (n_connect t + S i)%nat by lia;
        replace y with (n_connect t + S i)%nat by lia end.
      apply Hfail. lia.
    + unfold finally, reconnecting. simpl. rewrite Hr. simpl.
      match goal with |- connect_result dev ?x = _ =>
        replace x with (n_connect t + S k)%nat by lia end.
      exact Hok.
    + lia.
    + exists t'. split; [exact Hrun|]. rewrite Htrace.
      unfold finally, reconnecting. simpl. rewrite Hr. simpl.
      rewrite <- !app_assoc. simpl.
      match goal with |- context [Disconnect ?x] =>
        replace x with (n_connect t + S k)%nat by lia end.
      reflexivity.
Qed.

(** Reconnecting: when the first [k] connection attempts fail and the
    next one succeeds, the thread reports each failure with its text and
    sleeps 1.5 s before it tries again, then reports the connection
    once; asked to stop right after, it disconnects and returns.  Nothing
    else appears in the trace. *)
Theorem reconnects_until_connected (dev : Device) (errors : nat -> string)
  (k fuel : nat) (w : World) :
  (forall i : nat, (i <= k)%nat -> stop_requested dev i = false) ->
  stop_requested dev (k + 1) = true ->
  stop_requested dev (k + 2) = true ->
  (forall i : nat, (i < k)%nat -> connect_result dev i = Some (errors i)) ->
  connect_result dev k = None ->
  (k + 2 <= fuel)%nat ->
  exists t' : Thread,
    RTDEThread_run None dev fuel (RTDEThread_init w) = (Finished, t')
    /\ trace t'
       = failed_attempts errors 0 k
         ++ [Connect; EmitState true "Connected"; Disconnect k].
Proof.
  intros Hgo Hstop1 Hstop2 Hfail Hok Hfuel.
  exact (reconnects_from dev errors k fuel (RTDEThread_init w)
           eq_refl Hgo Hstop1 Hstop2 Hfail Hok Hfuel).
Qed.

Lemma reconnects_until_connected_witness :
  exists t' : Thread,
    RTDEThread_run None flaky 6 (RTDEThread_init ticking) = (Finished, t')
    /\ trace t'
       = failed_attempts (fun _ => "refused"%string) 0 3
         ++ [Connect; EmitState true "Connected"; Disconnect 3].
Proof.
  apply (reconnects_until_connected flaky (fun _ => "refused"%string) 3 6
                                    ticking).
  - intros i Hi. change ((4 <=? i)%nat = false). apply Nat.leb_gt. lia.
  - reflexivity.
  - reflexivity.
  - intros i Hi. change ((if (i <? 3)%nat then Some "refused"%string else None)
                         = Some "refused"%string).
    now replace (i <? 3)%nat with true by (symmetry; apply Nat.ltb_lt; lia).
  - reflexivity.
  - lia.
Defined.

Lemma count_data_app (l1 l2 : list action) :
  count_data (l1 ++ l2) = (count_data l1 + count_data l2)%nat.
Proof.
  induction l1 as [|a l1 IH]; simpl; [reflexivity|].
  destruct a; simpl; now rewrite IH.
Qed.

Lemma seconds_at_le (w : World) (i j : nat) :
  clock w i <= clock w j -> (seconds_at w i <= seconds_at w j)%Q.
Proof.
  intros Hle. unfold seconds_at, Qle, Qdiv, Qmult, Qinv, inject_Z. simpl.
  rewrite !Z.mul_1_r. lia.
Qed.

Lemma no_frames_gap (x : Q) :
  (x + inject_Z (Z.of_nat 0) * (1 # 10) <= x)%Q.
Proof. change (inject_Z (Z.of_nat 0)) with 0%Q. lra. Qed.

(** What one session of the inner loop does to [last_emit]: every frame
    that is emitted moves it forward by at least 0.1 s, to the reading of
    the clock taken just before. *)
Lemma stream_throttle (dev : Device) :
  forall (fuel : nat) (last_emit last_emit' : Q) (t t' : Thread)
         (e : session_end),
    stream dev fuel last_emit t = (e, last_emit', t') ->
    clock (world t') = clock (world t)
    /\ (ticks (world t) <= ticks (world t'))%nat
    /\ exists new : list action,
         trace t' = trace t ++ new
         /\ (last_emit + inject_Z (Z.of_nat (count_data new)) * (1 # 10)
             <= last_emit')%Q
         /\ (count_data new = 0%nat -> last_emit' = last_emit)
         /\ ((1 <= count_data new)%nat ->
             (exists first : nat,
                (ticks (world t) <= first)%nat
                /\ (seconds_at (world t) first
                    + (inject_Z (Z.of_nat (count_data new)) - 1) * (1 # 10)
                    <= last_emit')%Q)
             /\ (exists last : nat,
                   (last < ticks (world t'))%nat
                   /\ last_emit' = seconds_at (world t) last)).
Proof.
  induction fuel as [|fuel IH]; intros last_emit last_emit' t t' e.
  - simpl. intros [= _ <- <-]. split; [reflexivity|]. split; [lia|].
    exists []. rewrite app_nil_r. cbn [count_data].
    split; [reflexivity|]. split; [apply no_frames_gap|].
    split; [reflexivity | lia].
  - simpl. destruct (stop_requested dev (n_stop t)).
    { intros [= _ <- <-]. split; [reflexivity|]. split; [simpl; lia|].
      exists []. rewrite app_nil_r. cbn [count_data].
      split; [reflexivity|]. split; [apply no_frames_gap|].
      split; [reflexivity | lia]. }
    destruct (poll_result dev (n_poll t)) as [pkg|err].
    2:{ intros [= _ <- <-]. split; [reflexivity|]. split; [simpl; lia|].
        exists []. rewrite app_nil_r. cbn [count_data].
        split; [reflexivity|]. split; [apply no_frames_gap|].
        split; [reflexivity | lia]. }
    destruct (Qle_bool (1 # 10) (seconds_now (later (world t) 1) - last_emit))
      eqn:Hdue; intros Hrun; apply IH in Hrun;
      destruct Hrun as (Hclock & Hticks & new & Htrace & Hgap & Hnone & Hsome);
      simpl in Hclock, Hticks, Htrace;
      (split; [exact Hclock|]); (split; [lia|]).
    + apply Qle_bool_iff in Hdue.
      exists (EmitData pkg (seconds_now (world t)) :: Sleep (2 # 100) :: new).
      split; [rewrite Htrace, <- !app_assoc; reflexivity|].
      cbn [count_data].
      rewrite Nat2Z.inj_succ, <- Z.add_1_r, inject_Z_plus.
      change (inject_Z 1) with 1%Q.
      split; [lra|]. split; [lia|]. intros _. split.
      * exists (ticks (world t) + 1)%nat. split; [lia|].
        change (seconds_at (world t) (ticks (world t) + 1))
          with (seconds_now (later (world t) 1)).
        lra.
      * destruct (count_data new) as [|c] eqn:Hc.
        -- exists (ticks (world t) + 1)%nat. split; [lia|].
           rewrite (Hnone eq_refl). reflexivity.
        -- destruct Hsome as (_ & last & Hlast & Heq); [lia|].
           exists last. split; [exact Hlast|]. exact Heq.
    + exists (Sleep (2 # 100) :: new).
      split; [rewrite Htrace, <- !app_assoc; reflexivity|].
      cbn [count_data].
      split; [exact Hgap|]. split; [exact Hnone|]. intros Hone.
      destruct (Hsome Hone) as ((first & Hfirst & Hbound) & Hlast).
      split; [|exact Hlast]. simpl in Hfirst.
      exists first. split; [lia | exact Hbound].
Qed.

(** The stream to the window is capped at 10 Hz: under a clock that is
    never set back, the frames that one session emits are at least 0.1 s
    apart, so that [c] frames take at least (c - 1) * 0.1 s between the
    first and the last reading of the clock in the session. *)
Theorem data_rate_is_capped (dev : Device) (fuel : nat)
  (last_emit last_emit' : Q) (t t' : Thread) (e : session_end) :
  monotone (world t) ->
  stream dev fuel last_emit t = (e, last_emit', t') ->
  exists new : list action,
    trace t' = trace t ++ new
    /\ ((1 <= count_data new)%nat ->
        ((inject_Z (Z.of_nat (count_data new)) - 1) * (1 # 10)
         <= seconds_at (world t) (ticks (world t') - 1)
            - seconds_at (world t) (ticks (world t)))%Q).
Proof.
  intros Hmono Hrun.
  destruct (stream_throttle dev fuel last_emit last_emit' t t' e Hrun)
    as (_ & Hticks & new & Htrace & _ & _ & Hsome).
  exists new. split; [exact Htrace|]. intros Hone.
  destruct (Hsome Hone) as ((first & Hfirst & Hbound) & last & Hlast & Heq).
  assert (H1 : (seconds_at (world t) (ticks (world t))
                <= seconds_at (world t) first)%Q)
    by (apply seconds_at_le, Hmono; lia).
  assert (H2 : (seconds_at (world t) last
                <= seconds_at (world t) (ticks (world t') - 1))%Q)
    by (apply seconds_at_le, Hmono; lia).
  rewrite Heq in Hbound. lra.
Qed.

Lemma data_rate_is_capped_witness :
  exists new : list action,
    trace (snd (stream steady 9 0 (RTDEThread_init every_60ms)))
    = trace (RTDEThread_init every_60ms) ++ new
    /\ ((1 <= count_data new)%nat ->
        ((inject_Z (Z.of_nat (count_data new)) - 1) * (1 # 10)
         <= seconds_at (world (RTDEThread_init every_60ms))
              (ticks (world (snd (stream steady 9 0
                                    (RTDEThread_init every_60ms)))) - 1)
            - seconds_at (world (RTDEThread_init every_60ms))
                (ticks (world (RTDEThread_init every_60ms))))%Q).
Proof.
  apply (data_rate_is_capped steady 9 0
           (snd (fst (stream steady 9 0 (RTDEThread_init every_60ms))))
           (RTDEThread_init every_60ms)
           (snd (stream steady 9 0 (RTDEThread_init every_60ms)))
           (fst (fst (stream steady 9 0 (RTDEThread_init every_60ms))))).
  - intros i j Hij. simpl. lia.
  - vm_compute. reflexivity.
Defined.



(** ** The mode labels *)

Lemma str_int_inj (a b : Z) : str_int a = str_int b -> a = b.
Proof.
  unfold str_int. intros Heq. apply DecimalZ.to_int_inj.
  apply (f_equal DecimalString.NilEmpty.int_of_string) in Heq.
  rewrite !DecimalString.NilEmpty.isi in Heq. now injection Heq.
Qed.

Lemma mapping_names (mode : Z) (name : string) :
  mapping !! mode = Some name ->
  In (mode, name)
     [(0, "NO CTRL"); (1, "BOOT"); (2, "STANDBY"); (3, "READY");
      (4, "RUNNING"); (5, "PAUSED"); (6, "ERROR")]%string.
Proof.
  intros Hname. apply elem_of_list_to_map_2 in Hname.
  now apply list_elem_of_In in Hname.
Qed.

Lemma human_robot_mode_inj (a b : Z) :
  human_robot_mode a = human_robot_mode b -> a = b.
Proof.
  unfold human_robot_mode.
  destruct (mapping !! a) as [na|] eqn:Ha;
    destruct (mapping !! b) as [nb|] eqn:Hb; simpl.
  - apply mapping_names in Ha, Hb. intros <-.
    simpl in Ha, Hb.
    repeat (destruct Ha as [Ha|Ha]; [injection Ha as <- <-|]);
      try contradiction;
      repeat (destruct Hb as [Hb|Hb];
              [first [injection Hb as <- | discriminate Hb]|]);
      try contradiction; try reflexivity; discriminate.
  - apply mapping_names in Ha. simpl in Ha.
    repeat (destruct Ha as [Ha|Ha]; [injection Ha as <- <-; discriminate|]).
    contradiction.
  - apply mapping_names in Hb. simpl in Hb.
    repeat (destruct Hb as [Hb|Hb]; [injection Hb as <- <-; discriminate|]).
    contradiction.
  - intros Heq. injection Heq as Heq. now apply str_int_inj.
Qed.

(** The label tells the mode: [human_robot_mode] gives different labels to
    different mode codes, the seven named ones as well as all others. *)
Theorem human_robot_mode_distinct (a b : Z) :
  a <> b -> human_robot_mode a <> human_robot_mode b.
Proof. intros Hne Heq. now apply Hne, human_robot_mode_inj. Qed.

Lemma human_robot_mode_distinct_witness :
  human_robot_mode 4 <> human_robot_mode 7.
Proof. apply (human_robot_mode_distinct 4 7). lia. Defined.
